(** * Fogify.ai editor: the upload session of the API-backed front end

    A shallow embedding of the [FogifyEditor] class in its server-backed
    version (the pre-API version of [script.js] has the same
    [validateFile], [formatDuration] and [formatFileSize]), followed by
    the properties of the upload / analysis life cycle. The listeners of
    [bindEvents], the server status probe and the simulated processing of
    the pre-API editor are embedded as well, with their own properties at
    the end.

    How the JavaScript is read:
    - the editor object, the page elements it touches and the browser
      facilities it calls ([fetch], [WebSocket], [setTimeout],
      [URL.createObjectURL]) form one explicit [State]; every method is a
      function on that state;
    - an [async] method is cut at each [await fetch]: the part before it
      issues the request, the part after it is a handler run when the
      request settles (suffix [_resume]); callbacks of [setTimeout] and of
      the WebSocket are handlers too, and [step] dispatches one browser
      event to its handler;
    - strings are byte strings, case mapping acts on ASCII letters;
    - a property of a page element holds the value last assigned, except
      where the page does otherwise: a negative width is not taken, and
      the source of the player reads back as a resolved URL;
    - numbers are exact rationals ([Q]) or integers ([Z]); [NaN] is a
      separate value where the code tests for it. *)

From Stdlib Require Import ZArith QArith Qround String Ascii List Lia Lqa.
From Stdlib Require Import DecimalPos DecimalZ DecimalString.
From stdpp Require Import base list strings.
Import ListNotations.

Local Open Scope string_scope.

(** ** JavaScript primitives used by the editor *)

Module Js.

(** [Number.prototype.toString] of an integer (plain decimal, as printed
    for magnitudes below 10^21). *)
Definition toString (z : Z) : string := NilZero.string_of_int (Z.to_int z).

(** A number that may be [NaN] ([isNaN] is the only test the code makes). *)
Inductive number : Type :=
| Num (q : Q)
| NaN.

(** [Math.floor]. *)
Definition floor (q : Q) : Z := Qfloor q.

(** [Math.round]: the nearest integer, a tie going towards +infinity. *)
Definition round (q : Q) : Z := Qfloor (q + (1 # 2)).

(** Truncation towards zero, and the remainder [a % b] built on it (the
    result has the sign of the dividend). *)
Definition trunc (q : Q) : Z := if Qle_bool 0 q then Qfloor q else Qceiling q.

Definition rem (a b : Q) : Q := a - b * inject_Z (trunc (a / b)).

(** [a || b] on a string that may be missing: [undefined], [null] and the
    empty string are falsy. *)
Definition truthy (s : string) : bool := negb (String.eqb s "").

Definition or_else (a : option string) (b : string) : string :=
  match a with
  | Some s => if truthy s then s else b
  | None => b
  end.

Definition lower (c : ascii) : ascii :=
  let n := nat_of_ascii c in
  if (65 <=? n)%nat && (n <=? 90)%nat then ascii_of_nat (n + 32) else c.

Definition upper (c : ascii) : ascii :=
  let n := nat_of_ascii c in
  if (97 <=? n)%nat && (n <=? 122)%nat then ascii_of_nat (n - 32) else c.

Fixpoint map (f : ascii -> ascii) (s : string) : string :=
  match s with
  | EmptyString => EmptyString
  | String c s' => String (f c) (map f s')
  end.

(** Case mapping of the ASCII letters: on a string of ASCII characters
    this is the mapping of JavaScript. *)
Definition toLowerCase : string -> string := map lower.
Definition toUpperCase : string -> string := map upper.

(** [s.split(sep)] for a one-character separator: never an empty array. *)
Fixpoint split (sep : ascii) (s : string) : list string :=
  match s with
  | EmptyString => [EmptyString]
  | String c s' =>
      if Ascii.eqb c sep then EmptyString :: split sep s'
      else match split sep s' with
           | seg :: rest => String c seg :: rest
           | [] => [String c EmptyString]
           end
  end.

(** [arr.pop()] read as a value: the last element. *)
Definition pop (l : list string) : string := List.last l EmptyString.

(** [arr.includes(x)]. *)
Definition includes (l : list string) (x : string) : bool :=
  existsb (String.eqb x) l.

(** [s.startsWith(p)]. *)
Definition startsWith (s p : string) : bool := String.prefix p s.

(** [arr.join(sep)]. *)
Fixpoint join (sep : string) (l : list string) : string :=
  match l with
  | [] => EmptyString
  | [x] => x
  | x :: rest => x +:+ sep +:+ join sep rest
  end.

(** [s.padStart(2, '0')]. *)
Definition padStart2 (s : string) : string :=
  match String.length s with
  | 0%nat => "00"
  | 1%nat => "0" +:+ s
  | _ => s
  end.

(** [parseFloat(x.toFixed(2))] followed by the conversion back to a
    string, for [0 <= x]: [x] is rounded to hundredths (a tie going up)
    and printed without trailing zeros. *)
Definition hundredths (x : Q) : Z := Qfloor (x * 100 + (1 # 2)).

Definition hundredths_toString (n : Z) : string :=
  let whole := (n / 100)%Z in
  let frac := (n mod 100)%Z in
  if (frac =? 0)%Z then toString whole
  else if (frac mod 10 =? 0)%Z then toString whole +:+ "." +:+ toString (frac / 10)
  else toString whole +:+ "." +:+ padStart2 (toString frac).

End Js.

(** ** Data *)

(** A [File] of the File API, as far as the editor reads it. *)
Module File.
Record t : Type := mk { name : string; size : Z; type : string }.
End File.

(** The JSON bodies of the backend contract. *)
Record Metadata : Type := {
  duration : Js.number;
  width : Z;
  height : Z;
  frame_count : Z;
  fps : Q;
  file_size : Z
}.

Record UploadResult : Type := {
  task_id : string;
  filename : string;
  metadata : Metadata
}.

Record AnalysisSummary : Type := {
  detection_count : Z;
  total_frames : Z
}.

(** A parsed message of the push channel, by its [type] field. *)
Inductive ChannelData : Type :=
| Progress (progress : Q) (message : string)
| Complete (result : AnalysisSummary)
| Error (message : string)
| Other.

(** How a [fetch] settles, once the body has been read: the promise
    rejects (network failure), or a response arrives whose [ok] flag is
    false (its JSON body may carry a string [detail]) or true (its JSON
    body is [body], of the shape the backend contract gives it), or a
    response arrives, [ok] or not, whose body is not JSON, so that
    [response.json()] rejects with an error of the given message. *)
Inductive Outcome (A : Type) : Type :=
| NetworkError (message : string)
| NotOk (detail : option string)
| Ok (body : A)
| BadBody (ok : bool) (message : string).

Arguments NetworkError {A} message.
Arguments NotOk {A} detail.
Arguments Ok {A} body.
Arguments BadBody {A} ok message.

(** ** Constants of the constructor *)

Definition supportedFormats : list string := ["mp4"; "mov"; "avi"; "mkv"; "webm"].
Definition maxFileSize : Z := 500 * 1024 * 1024.

(** ** Display helpers *)

Definition formatDuration (seconds : Js.number) : string :=
  match seconds with
  | Js.NaN => "알 수 없음"
  | Js.Num s =>
      let hours := Js.floor (s / 3600) in
      let minutes := Js.floor (Js.rem s 3600 / 60) in
      let secs := Js.floor (Js.rem s 60) in
      if (hours >? 0)%Z then
        Js.toString hours +:+ ":" +:+ Js.padStart2 (Js.toString minutes)
          +:+ ":" +:+ Js.padStart2 (Js.toString secs)
      else
        Js.toString minutes +:+ ":" +:+ Js.padStart2 (Js.toString secs)
  end.

(** [Math.floor(Math.log(bytes) / Math.log(k))] is taken as the exact
    integer logarithm, which is what the floating-point quotient gives for
    the sizes below [1024^4]; for a negative [bytes] the logarithm is
    [NaN], which reaches the result as ["NaN undefined"]. An index outside
    [sizes] reads [undefined]. *)
Definition formatFileSize (bytes : Z) : string :=
  if (bytes =? 0)%Z then "0 Bytes"
  else if (bytes <? 0)%Z then "NaN undefined"
  else
    let k := 1024%Z in
    let sizes := ["Bytes"; "KB"; "MB"; "GB"] in
    let i := (Z.log2 bytes / Z.log2 k)%Z in
    Js.hundredths_toString (Js.hundredths (inject_Z bytes / inject_Z (k ^ i)))
      +:+ " " +:+ nth (Z.to_nat i) sizes "undefined".

(** ** State *)

(** The fields of the editor object that change after construction. *)
Record Session : Type := {
  currentFile : option File.t;
  currentTaskId : option string;
  websocket : option nat         (* a reference into [sockets] *)
}.

(** What [showVideoInfo] renders into [videoInfo.innerHTML]. *)
Record InfoPanel : Type := {
  panel_filename : string;
  panel_duration : string;
  panel_resolution : Z * Z;
  panel_frame_count : Z;
  panel_fps : Q;
  panel_file_size : string
}.

(** The page elements, each by the properties the editor assigns. A
    property holds the value last assigned to it (the empty string before
    any assignment) and reads back as that value, with two exceptions:
    [progressFill.style.width] keeps its value when a negative percentage
    is assigned (see [updateProgress]), and [videoPlayer.src] reflects a
    content attribute, which is absent until the first assignment and
    reads back as a resolved URL (see [videoPlayer_src_read]).
    [videoInfo] holds its [innerHTML] and the result blocks appended to
    it. *)
Record Page : Type := {
  fileInput_value : string;
  uploadProgress_display : string;
  progressFill_width : string;
  progressText_textContent : string;
  errorMessage_textContent : string;
  errorMessage_display : string;
  uploadSection_display : string;
  videoSection_display : string;
  videoPlayer_src : string;
  videoPlayer_src_present : bool;
  videoInfo_innerHTML : option InfoPanel;
  videoInfo_children : list AnalysisSummary
}.

(** The [readyState] of a WebSocket. *)
Inductive ReadyState : Type := CONNECTING | OPEN | CLOSING | CLOSED.

Record Socket : Type := { url : string; readyState : ReadyState }.

(** A call of [fetch] made by the editor. The status probe of the page
    calls [fetch] as well; its calls are counted in [Window]. *)
Inductive Request : Type :=
| PostUpload (file : File.t)
| PostAnalyze (taskId : string).

(** The browser: every WebSocket created (a socket is named by its
    position), every [fetch] issued, the requests still in flight, the
    pending [setTimeout] callbacks of [uploadFileToServer] with the values
    they captured, the object URLs created so far and the revocations. *)
Record Browser : Type := {
  sockets : list Socket;
  requests : list Request;
  inflight : list Request;
  timers : list (File.t * Metadata);
  objectURLs : nat;
  revoked : list string
}.

Record State : Type := {
  session : Session;
  page : Page;
  browser : Browser
}.

(** *** Field updates *)

Definition with_session (f : Session -> Session) (st : State) : State :=
  {| session := f (session st); page := page st; browser := browser st |}.

Definition with_page (f : Page -> Page) (st : State) : State :=
  {| session := session st; page := f (page st); browser := browser st |}.

Definition with_browser (f : Browser -> Browser) (st : State) : State :=
  {| session := session st; page := page st; browser := f (browser st) |}.

Definition set_currentFile (v : option File.t) : State -> State :=
  with_session (fun s =>
    {| currentFile := v; currentTaskId := currentTaskId s; websocket := websocket s |}).

Definition set_currentTaskId (v : option string) : State -> State :=
  with_session (fun s =>
    {| currentFile := currentFile s; currentTaskId := v; websocket := websocket s |}).

Definition set_websocket (v : option nat) : State -> State :=
  with_session (fun s =>
    {| currentFile := currentFile s; currentTaskId := currentTaskId s; websocket := v |}).

Definition set_fileInput_value (v : string) : State -> State :=
  with_page (fun p =>
    {| fileInput_value := v;
       uploadProgress_display := uploadProgress_display p;
       progressFill_width := progressFill_width p;
       progressText_textContent := progressText_textContent p;
       errorMessage_textContent := errorMessage_textContent p;
       errorMessage_display := errorMessage_display p;
       uploadSection_display := uploadSection_display p;
       videoSection_display := videoSection_display p;
       videoPlayer_src := videoPlayer_src p;
       videoPlayer_src_present := videoPlayer_src_present p;
       videoInfo_innerHTML := videoInfo_innerHTML p;
       videoInfo_children := videoInfo_children p |}).

Definition set_uploadProgress_display (v : string) : State -> State :=
  with_page (fun p =>
    {| fileInput_value := fileInput_value p;
       uploadProgress_display := v;
       progressFill_width := progressFill_width p;
       progressText_textContent := progressText_textContent p;
       errorMessage_textContent := errorMessage_textContent p;
       errorMessage_display := errorMessage_display p;
       uploadSection_display := uploadSection_display p;
       videoSection_display := videoSection_display p;
       videoPlayer_src := videoPlayer_src p;
       videoPlayer_src_present := videoPlayer_src_present p;
       videoInfo_innerHTML := videoInfo_innerHTML p;
       videoInfo_children := videoInfo_children p |}).

Definition set_progress (w t : string) : State -> State :=
  with_page (fun p =>
    {| fileInput_value := fileInput_value p;
       uploadProgress_display := uploadProgress_display p;
       progressFill_width := w;
       progressText_textContent := t;
       errorMessage_textContent := errorMessage_textContent p;
       errorMessage_display := errorMessage_display p;
       uploadSection_display := uploadSection_display p;
       videoSection_display := videoSection_display p;
       videoPlayer_src := videoPlayer_src p;
       videoPlayer_src_present := videoPlayer_src_present p;
       videoInfo_innerHTML := videoInfo_innerHTML p;
       videoInfo_children := videoInfo_children p |}).

Definition set_errorMessage_textContent (v : string) : State -> State :=
  with_page (fun p =>
    {| fileInput_value := fileInput_value p;
       uploadProgress_display := uploadProgress_display p;
       progressFill_width := progressFill_width p;
       progressText_textContent := progressText_textContent p;
       errorMessage_textContent := v;
       errorMessage_display := errorMessage_display p;
       uploadSection_display := uploadSection_display p;
       videoSection_display := videoSection_display p;
       videoPlayer_src := videoPlayer_src p;
       videoPlayer_src_present := videoPlayer_src_present p;
       videoInfo_innerHTML := videoInfo_innerHTML p;
       videoInfo_children := videoInfo_children p |}).

Definition set_errorMessage_display (v : string) : State -> State :=
  with_page (fun p =>
    {| fileInput_value := fileInput_value p;
       uploadProgress_display := uploadProgress_display p;
       progressFill_width := progressFill_width p;
       progressText_textContent := progressText_textContent p;
       errorMessage_textContent := errorMessage_textContent p;
       errorMessage_display := v;
       uploadSection_display := uploadSection_display p;
       videoSection_display := videoSection_display p;
       videoPlayer_src := videoPlayer_src p;
       videoPlayer_src_present := videoPlayer_src_present p;
       videoInfo_innerHTML := videoInfo_innerHTML p;
       videoInfo_children := videoInfo_children p |}).

(** [uploadSection.style.display] and [videoSection.style.display] are
    always assigned together. *)
Definition set_sections (upload video : string) : State -> State :=
  with_page (fun p =>
    {| fileInput_value := fileInput_value p;
       uploadProgress_display := uploadProgress_display p;
       progressFill_width := progressFill_width p;
       progressText_textContent := progressText_textContent p;
       errorMessage_textContent := errorMessage_textContent p;
       errorMessage_display := errorMessage_display p;
       uploadSection_display := upload;
       videoSection_display := video;
       videoPlayer_src := videoPlayer_src p;
       videoPlayer_src_present := videoPlayer_src_present p;
       videoInfo_innerHTML := videoInfo_innerHTML p;
       videoInfo_children := videoInfo_children p |}).

Definition set_videoPlayer_src (v : string) : State -> State :=
  with_page (fun p =>
    {| fileInput_value := fileInput_value p;
       uploadProgress_display := uploadProgress_display p;
       progressFill_width := progressFill_width p;
       progressText_textContent := progressText_textContent p;
       errorMessage_textContent := errorMessage_textContent p;
       errorMessage_display := errorMessage_display p;
       uploadSection_display := uploadSection_display p;
       videoSection_display := videoSection_display p;
       videoPlayer_src := v;
       videoPlayer_src_present := true;
       videoInfo_innerHTML := videoInfo_innerHTML p;
       videoInfo_children := videoInfo_children p |}).

Definition set_videoInfo (html : option InfoPanel) (children : list AnalysisSummary)
  : State -> State :=
  with_page (fun p =>
    {| fileInput_value := fileInput_value p;
       uploadProgress_display := uploadProgress_display p;
       progressFill_width := progressFill_width p;
       progressText_textContent := progressText_textContent p;
       errorMessage_textContent := errorMessage_textContent p;
       errorMessage_display := errorMessage_display p;
       uploadSection_display := uploadSection_display p;
       videoSection_display := videoSection_display p;
       videoPlayer_src := videoPlayer_src p;
       videoPlayer_src_present := videoPlayer_src_present p;
       videoInfo_innerHTML := html;
       videoInfo_children := children |}).

Definition set_sockets (v : list Socket) : State -> State :=
  with_browser (fun b =>
    {| sockets := v; requests := requests b; inflight := inflight b;
       timers := timers b; objectURLs := objectURLs b; revoked := revoked b |}).

Definition set_network (issued pending : list Request) : State -> State :=
  with_browser (fun b =>
    {| sockets := sockets b; requests := issued; inflight := pending;
       timers := timers b; objectURLs := objectURLs b; revoked := revoked b |}).

Definition set_timers (v : list (File.t * Metadata)) : State -> State :=
  with_browser (fun b =>
    {| sockets := sockets b; requests := requests b; inflight := inflight b;
       timers := v; objectURLs := objectURLs b; revoked := revoked b |}).

Definition set_objectURLs (v : nat) : State -> State :=
  with_browser (fun b =>
    {| sockets := sockets b; requests := requests b; inflight := inflight b;
       timers := timers b; objectURLs := v; revoked := revoked b |}).

Definition set_revoked (v : list string) : State -> State :=
  with_browser (fun b =>
    {| sockets := sockets b; requests := requests b; inflight := inflight b;
       timers := timers b; objectURLs := objectURLs b; revoked := v |}).

(** The URL of the document. The repository does not fix it; all that
    matters below is that it is not empty and is not an object URL. *)
Definition documentURL : string := "http://localhost:3000/index.html".

(** Reading [videoPlayer.src]: the attribute resolved against the
    document, so an object URL reads back as itself, an attribute set to
    the empty string reads back as the URL of the document, and an absent
    attribute as the empty string. *)
Definition videoPlayer_src_read (p : Page) : string :=
  if Js.truthy (videoPlayer_src p) then videoPlayer_src p
  else if videoPlayer_src_present p then documentURL
  else "".

(** The state the constructor leaves: nothing selected, no task, no
    socket, nothing assigned on the page yet. *)
Definition initial : State :=
  {| session := {| currentFile := None; currentTaskId := None; websocket := None |};
     page := {| fileInput_value := "";
                uploadProgress_display := "";
                progressFill_width := "";
                progressText_textContent := "";
                errorMessage_textContent := "";
                errorMessage_display := "";
                uploadSection_display := "";
                videoSection_display := "";
                videoPlayer_src := "";
                videoPlayer_src_present := false;
                videoInfo_innerHTML := None;
                videoInfo_children := [] |};
     browser := {| sockets := []; requests := []; inflight := [];
                   timers := []; objectURLs := 0; revoked := [] |} |}.

(** ** Methods of [FogifyEditor] *)

Definition showProgress : State -> State := set_uploadProgress_display "block".
Definition hideProgress : State -> State := set_uploadProgress_display "none".

(** A negative percentage is not a valid [width]: the assignment to
    [style.width] is ignored and the bar keeps the width it had. *)
Definition updateProgress (percent : Q) (message : string) (st : State) : State :=
  let rounded := Js.round percent in
  let shown := Js.toString rounded +:+ "%" in
  let width := if (rounded <? 0)%Z then progressFill_width (page st) else shown in
  set_progress width (Js.or_else (Some message) shown) st.

Definition showError (message : string) (st : State) : State :=
  set_errorMessage_display "block" (set_errorMessage_textContent message st).

Definition hideError : State -> State := set_errorMessage_display "none".

(** The messages of [validateFile]. *)
Definition msg_no_file : string := "파일이 선택되지 않았습니다.".

Definition msg_too_large : string :=
  "파일 크기가 너무 큽니다. 최대 " +:+ Js.toString (maxFileSize / (1024 * 1024))
    +:+ "MB까지 지원됩니다.".

Definition msg_bad_format : string :=
  "지원되지 않는 파일 형식입니다. 지원 형식: "
    +:+ Js.toUpperCase (Js.join ", " supportedFormats).

Definition msg_not_video : string := "비디오 파일만 업로드할 수 있습니다.".

(** [file.name.split('.').pop().toLowerCase()]. *)
Definition fileExtension (f : File.t) : string :=
  Js.toLowerCase (Js.pop (Js.split "." (File.name f))).

Definition validateFile (file : option File.t) (st : State) : bool * State :=
  match file with
  | None => (false, showError msg_no_file st)
  | Some f =>
      if (File.size f >? maxFileSize)%Z then (false, showError msg_too_large st)
      else if negb (Js.includes supportedFormats (fileExtension f))
      then (false, showError msg_bad_format st)
      else if negb (Js.startsWith (File.type f) "video/")
      then (false, showError msg_not_video st)
      else (true, st)
  end.

(** [fetch(...)]: the call is recorded and the request is in flight. *)
Definition fetch (r : Request) (st : State) : State :=
  set_network (requests (browser st) ++ [r]) (inflight (browser st) ++ [r]) st.

(** [uploadFileToServer] up to [await fetch]. *)
Definition uploadFileToServer (file : File.t) (st : State) : State :=
  let st := showProgress st in
  let st := updateProgress 0 "파일 업로드 중..." st in
  fetch (PostUpload file) st.

Definition handleFileSelect (file : option File.t) (st : State) : State :=
  let (valid, st) := validateFile file st in
  if negb valid then st
  else
    match file with
    | Some f =>
        let st := hideError st in
        let st := set_currentFile (Some f) st in
        uploadFileToServer f st
    | None => st
    end.

Definition showVideoInfo (uploadResult : UploadResult) : State -> State :=
  let md := metadata uploadResult in
  set_videoInfo
    (Some {| panel_filename := filename uploadResult;
             panel_duration := formatDuration (duration md);
             panel_resolution := (width md, height md);
             panel_frame_count := frame_count md;
             panel_fps := fps md;
             panel_file_size := formatFileSize (file_size md) |})
    [].

(** [URL.createObjectURL]: a URL not handed out before. *)
Definition objectURL (n : nat) : string := "blob:" +:+ Js.toString (Z.of_nat n).

Definition showVideoPlayer (file : File.t) (md : Metadata) (st : State) : State :=
  let fileURL := objectURL (objectURLs (browser st)) in
  let st := set_objectURLs (S (objectURLs (browser st))) st in
  let st := set_videoPlayer_src fileURL st in
  set_sections "none" "block" st.

(** The callback handed to [setTimeout] by [uploadFileToServer]. *)
Definition uploadFileToServer_timeout (file : File.t) (md : Metadata) (st : State) : State :=
  showVideoPlayer file md (hideProgress st).

Definition msg_upload_failed : string := "파일 업로드에 실패했습니다.".

(** [uploadFileToServer] from the point where [fetch] settles. A rejected
    [fetch], the [Error] thrown for a response that is not [ok] and the
    error of a body that cannot be read all reach the [catch] block with
    the state as it was. *)
Definition uploadFileToServer_resume
    (file : File.t) (o : Outcome UploadResult) (st : State) : State :=
  let catch (message : string) := hideProgress (showError message st) in
  match o with
  | NetworkError message => catch message
  | NotOk detail => catch (Js.or_else detail msg_upload_failed)
  | BadBody _ message => catch message
  | Ok result =>
      let st := set_currentTaskId (Some (task_id result)) st in
      let st := showVideoInfo result st in
      let st := updateProgress 100 "업로드 완료! AI 분석을 시작합니다..." st in
      set_timers (timers (browser st) ++ [(file, metadata result)]) st
  end.

(** Whether a URL has a fragment: it contains [#]. *)
Fixpoint has_fragment (wsUrl : string) : bool :=
  match wsUrl with
  | EmptyString => false
  | String c rest => Ascii.eqb c "#" || has_fragment rest
  end.

(** The text after the first [#]. *)
Fixpoint fragment (wsUrl : string) : string :=
  match wsUrl with
  | EmptyString => EmptyString
  | String c rest => if Ascii.eqb c "#" then rest else fragment rest
  end.

(** The message of the [SyntaxError] that [new WebSocket] throws for a
    URL with a fragment; the wording is the browser's (Chromium's here). *)
Definition msg_fragment (wsUrl : string) : string :=
  "Failed to construct 'WebSocket': The URL contains a fragment identifier ('"
    +:+ fragment wsUrl
    +:+ "'). Fragment identifiers are not allowed in WebSocket URLs.".

(** [new WebSocket(wsUrl)] stored in [this.websocket]; whatever socket the
    field referred to before is left as it is. The constructor throws for
    a URL with a fragment, and then nothing is created or stored: the
    result is the message of the error. *)
Definition connectWebSocket (st : State) : string + State :=
  let wsUrl := "ws://localhost:8000/ws/" +:+ default "null" (currentTaskId (session st)) in
  if has_fragment wsUrl then inl (msg_fragment wsUrl)
  else
    let ws := length (sockets (browser st)) in
    let st := set_sockets (sockets (browser st) ++ [{| url := wsUrl; readyState := CONNECTING |}]) st in
    inr (set_websocket (Some ws) st).

Definition msg_no_task : string := "분석할 작업이 없습니다. 먼저 파일을 업로드하세요.".
Definition msg_analyze_failed : string := "분석 시작에 실패했습니다.".

(** [startAnalysis] up to [await fetch]. An error thrown by
    [connectWebSocket] reaches the [catch] block before [fetch] is
    called. *)
Definition startAnalysis (st : State) : State :=
  match currentTaskId (session st) with
  | Some t =>
      if Js.truthy t then
        match connectWebSocket st with
        | inr st => fetch (PostAnalyze t) st
        | inl message => showError message st
        end
      else showError msg_no_task st
  | None => showError msg_no_task st
  end.

Definition startAnalysis_resume (o : Outcome unit) (st : State) : State :=
  match o with
  | NetworkError message => showError message st
  | NotOk detail => showError (Js.or_else detail msg_analyze_failed) st
  | BadBody _ message => showError message st
  | Ok _ =>
      let st := showProgress st in
      updateProgress 0 "AI 얼굴 분석을 시작합니다..." st
  end.

(** [ws.close()]: a socket that is connecting or open starts closing. *)
Definition close_socket (s : Socket) : Socket :=
  match readyState s with
  | CONNECTING | OPEN => {| url := url s; readyState := CLOSING |}
  | CLOSING | CLOSED => s
  end.

Definition close (ws : nat) (st : State) : State :=
  set_sockets (alter close_socket ws (sockets (browser st))) st.

Definition onAnalysisComplete (result : AnalysisSummary) (st : State) : State :=
  let st := hideProgress st in
  let st := set_videoInfo (videoInfo_innerHTML (page st))
                          (videoInfo_children (page st) ++ [result]) st in
  match websocket (session st) with
  | Some ws => close ws st
  | None => st
  end.

(** [websocket.onmessage], after [JSON.parse]. *)
Definition onmessage (data : ChannelData) (st : State) : State :=
  match data with
  | Progress progress message => updateProgress progress message st
  | Complete result => onAnalysisComplete result st
  | Error message => hideProgress (showError message st)
  | Other => st
  end.

(** [websocket.onerror]. *)
Definition onerror : State -> State := showError "실시간 연결에 문제가 발생했습니다.".

(** [URL.revokeObjectURL] is called with whatever [videoPlayer.src]
    reads; the call is recorded also when that is not an object URL. *)
Definition resetUpload (st : State) : State :=
  let st :=
    if Js.truthy (videoPlayer_src_read (page st)) then
      let st := set_revoked (revoked (browser st) ++ [videoPlayer_src_read (page st)]) st in
      set_videoPlayer_src "" st
    else st in
  let st :=
    match websocket (session st) with
    | Some ws => set_websocket None (close ws st)
    | None => st
    end in
  let st := set_currentFile None st in
  let st := set_currentTaskId None st in
  let st := set_fileInput_value "" st in
  let st := hideError st in
  let st := hideProgress st in
  set_sections "block" "none" st.

(** ** The event loop *)

(** What the browser can deliver to the editor: a file chosen or dropped, a
    click on one of the two buttons of the info panel, the settling of the
    [i]-th request in flight, the firing of the [i]-th pending timer, and
    the four events of the socket created [ws]-th. *)
Inductive Event : Type :=
| FileSelected (file : option File.t)
| StartAnalysisClicked
| ResetClicked
| UploadSettled (i : nat) (o : Outcome UploadResult)
| AnalyzeSettled (i : nat) (o : Outcome unit)
| TimerFired (i : nat)
| SocketOpened (ws : nat)
| SocketMessage (ws : nat) (data : ChannelData)
| SocketError (ws : nat)
| SocketClosed (ws : nat).

Definition set_readyState (r : ReadyState) (s : Socket) : Socket :=
  {| url := url s; readyState := r |}.

(** A message event is dispatched only while the socket is [OPEN]; an
    event that cannot occur in the current state changes nothing. *)
Definition step (st : State) (e : Event) : State :=
  match e with
  | FileSelected file => handleFileSelect file st
  | StartAnalysisClicked => startAnalysis st
  | ResetClicked => resetUpload st
  | UploadSettled i o =>
      match inflight (browser st) !! i with
      | Some (PostUpload file) =>
          uploadFileToServer_resume file o
            (set_network (requests (browser st)) (delete i (inflight (browser st))) st)
      | _ => st
      end
  | AnalyzeSettled i o =>
      match inflight (browser st) !! i with
      | Some (PostAnalyze _) =>
          startAnalysis_resume o
            (set_network (requests (browser st)) (delete i (inflight (browser st))) st)
      | _ => st
      end
  | TimerFired i =>
      match timers (browser st) !! i with
      | Some (file, md) =>
          uploadFileToServer_timeout file md
            (set_timers (delete i (timers (browser st))) st)
      | None => st
      end
  | SocketOpened ws =>
      match sockets (browser st) !! ws with
      | Some {| readyState := CONNECTING |} =>
          set_sockets (alter (set_readyState OPEN) ws (sockets (browser st))) st
      | _ => st
      end
  | SocketMessage ws data =>
      match sockets (browser st) !! ws with
      | Some {| readyState := OPEN |} => onmessage data st
      | _ => st
      end
  | SocketError ws =>
      match sockets (browser st) !! ws with
      | Some {| readyState := CLOSED |} | None => st
      | Some _ => onerror st
      end
  | SocketClosed ws =>
      set_sockets (alter (set_readyState CLOSED) ws (sockets (browser st))) st
  end.

Definition run (events : list Event) (st : State) : State := fold_left step events st.

(** A state the page can be in: some sequence of events after construction. *)
Definition reachable (st : State) : Prop := exists events, st = run events initial.

(** ** The rest of the page: file input, drag and drop, server status *)

(** The element [showServerStatus] keeps in the document body. *)
Record StatusElement : Type := { className : string; textContent : string }.

(** The editor together with what the listeners of [bindEvents] and the
    two global functions touch besides it: the [dragover] class of the
    upload area, the elements with id [serverStatus] appended to the
    body, in document order, and the number of times [checkServerStatus]
    has called [fetch]. *)
Record Window : Type := {
  editor : State;
  uploadArea_dragover : bool;
  body_serverStatus : list StatusElement;
  statusProbes : nat
}.

(** [document.getElementById] returns the first element with the id; a
    missing element is created and appended before it is filled in. *)
Definition showServerStatus (status message : string) (body : list StatusElement)
  : list StatusElement :=
  let filled :=
    {| className := "server-status server-" +:+ status; textContent := message |} in
  match body with
  | [] => [filled]
  | _ :: rest => filled :: rest
  end.

(** [checkServerStatus] up to [await fetch]. *)
Definition checkServerStatus (w : Window) : Window :=
  {| editor := editor w;
     uploadArea_dragover := uploadArea_dragover w;
     body_serverStatus := body_serverStatus w;
     statusProbes := S (statusProbes w) |}.

(** [checkServerStatus] from the point where [fetch] settles; the body of
    a success response carries [model_loaded]. The body is read only when
    the response is [ok]; a body that cannot be read then reaches the
    [catch] block. *)
Definition checkServerStatus_resume (o : Outcome bool) (w : Window) : Window :=
  let show status message :=
    {| editor := editor w;
       uploadArea_dragover := uploadArea_dragover w;
       body_serverStatus := showServerStatus status message (body_serverStatus w);
       statusProbes := statusProbes w |} in
  match o with
  | Ok model_loaded =>
      show "online"
           ("서버 온라인 " +:+ (if model_loaded then "(모델 로드됨)" else "(모델 로딩 중)"))
  | NotOk _ | BadBody false _ => show "offline" "서버 오프라인"
  | NetworkError _ | BadBody true _ => show "offline" "서버 연결 실패"
  end.

(** What reaches the listeners of [bindEvents] and the status probe, next
    to the events of the editor itself: the four events of the upload
    area, a tick of the interval set for [checkServerStatus], and the
    settling of a probe. A click on the upload area only opens the file
    dialog and is not an event here. *)
Inductive DomEvent : Type :=
| Change (files : list File.t)
| DragOver
| DragLeave
| Drop (files : list File.t)
| StatusProbeDue
| ServerStatusSettled (o : Outcome bool)
| EditorEvent (e : Event).

Definition set_dragover (v : bool) (w : Window) : Window :=
  {| editor := editor w; uploadArea_dragover := v;
     body_serverStatus := body_serverStatus w;
     statusProbes := statusProbes w |}.

Definition set_editor (st : State) (w : Window) : Window :=
  {| editor := st; uploadArea_dragover := uploadArea_dragover w;
     body_serverStatus := body_serverStatus w;
     statusProbes := statusProbes w |}.

(** The listeners: [change] hands over [files[0]], which is [undefined]
    for an empty list; [drop] removes the highlight and hands over the
    first file when there is one. *)
Definition dispatch (w : Window) (e : DomEvent) : Window :=
  match e with
  | Change files => set_editor (handleFileSelect (head files) (editor w)) w
  | DragOver => set_dragover true w
  | DragLeave => set_dragover false w
  | Drop files =>
      let w := set_dragover false w in
      match files with
      | first :: _ => set_editor (handleFileSelect (Some first) (editor w)) w
      | [] => w
      end
  | StatusProbeDue => checkServerStatus w
  | ServerStatusSettled o => checkServerStatus_resume o w
  | EditorEvent e => set_editor (step (editor w) e) w
  end.

(** The page once its script has run: the editor is constructed and
    [checkServerStatus] has been called once. *)
Definition loaded : Window :=
  checkServerStatus
    {| editor := initial; uploadArea_dragover := false; body_serverStatus := [];
       statusProbes := 0 |}.

(** ** The editor before the API ([script.js]) *)

Module Legacy.

(** One call of [simulateFileProcessing]: its file, its [progress]
    variable, and whether its interval is still set. *)
Record Simulation : Type := {
  sim_file : File.t;
  sim_progress : Q;
  sim_running : bool
}.

(** What [displayVideoInfo] renders into [videoInfo.innerHTML]. *)
Record Panel : Type := {
  panel_name : string;
  panel_length : string;
  panel_size : Z * Z;
  panel_bytes : string;
  panel_format : string
}.

(** The older editor has the same page and the same [currentFile]; it
    never touches the task id, the sockets or the requests of [State]. On
    top of these it has its intervals, the pending [setTimeout] callbacks
    of [onFileProcessed], the [loadedmetadata] listeners added to the
    player, and its own info panel. *)
Record Editor : Type := {
  base : State;
  intervals : list Simulation;
  timeouts : list File.t;
  listeners : list File.t;
  videoInfo : option Panel
}.

Definition with_base (f : State -> State) (ed : Editor) : Editor :=
  {| base := f (base ed); intervals := intervals ed; timeouts := timeouts ed;
     listeners := listeners ed; videoInfo := videoInfo ed |}.

Definition set_intervals (v : list Simulation) (ed : Editor) : Editor :=
  {| base := base ed; intervals := v; timeouts := timeouts ed;
     listeners := listeners ed; videoInfo := videoInfo ed |}.

Definition set_timeouts (v : list File.t) (ed : Editor) : Editor :=
  {| base := base ed; intervals := intervals ed; timeouts := v;
     listeners := listeners ed; videoInfo := videoInfo ed |}.

Definition set_listeners (v : list File.t) (ed : Editor) : Editor :=
  {| base := base ed; intervals := intervals ed; timeouts := timeouts ed;
     listeners := v; videoInfo := videoInfo ed |}.

Definition set_videoInfo (v : option Panel) (ed : Editor) : Editor :=
  {| base := base ed; intervals := intervals ed; timeouts := timeouts ed;
     listeners := listeners ed; videoInfo := v |}.

Definition constructed : Editor :=
  {| base := initial; intervals := []; timeouts := []; listeners := [];
     videoInfo := None |}.

Definition updateProgress (percent : Q) : Editor -> Editor :=
  let rounded := Js.round percent in
  let shown := Js.toString rounded +:+ "%" in
  with_base (fun st =>
    let width := if (rounded <? 0)%Z then progressFill_width (page st) else shown in
    set_progress width shown st).

Definition showProgress (ed : Editor) : Editor :=
  updateProgress 0 (with_base (set_uploadProgress_display "block") ed).

Definition hideProgress : Editor -> Editor :=
  with_base (set_uploadProgress_display "none").

(** [setInterval]: the simulation starts with [progress = 0]. *)
Definition simulateFileProcessing (file : File.t) (ed : Editor) : Editor :=
  set_intervals
    (intervals ed ++ [{| sim_file := file; sim_progress := 0; sim_running := true |}]) ed.

Definition processFile (file : File.t) (ed : Editor) : Editor :=
  simulateFileProcessing file (showProgress ed).

(** [validateFile] is the same text in both versions. *)
Definition handleFileSelect (file : option File.t) (ed : Editor) : Editor :=
  let (valid, st) := validateFile file (base ed) in
  let ed := with_base (fun _ => st) ed in
  if negb valid then ed
  else
    match file with
    | Some f =>
        let ed := with_base hideError ed in
        let ed := with_base (set_currentFile (Some f)) ed in
        processFile f ed
    | None => ed
    end.

(** [setTimeout] of half a second. *)
Definition onFileProcessed (file : File.t) (ed : Editor) : Editor :=
  set_timeouts (timeouts ed ++ [file]) ed.

(** The callback of the [i]-th interval, with the value [Math.random()]
    returned to it. *)
Definition interval_callback (i : nat) (random : Q) (ed : Editor) : Editor :=
  match intervals ed !! i with
  | Some sim =>
      let progress := (sim_progress sim + random * 15)%Q in
      if Qle_bool 100 progress then
        let ed :=
          set_intervals
            (<[i := {| sim_file := sim_file sim; sim_progress := 100;
                       sim_running := false |}]> (intervals ed)) ed in
        let ed := onFileProcessed (sim_file sim) ed in
        updateProgress 100 ed
      else
        let ed :=
          set_intervals
            (<[i := {| sim_file := sim_file sim; sim_progress := progress;
                       sim_running := true |}]> (intervals ed)) ed in
        updateProgress progress ed
  | None => ed
  end.

Definition showVideoPlayer (file : File.t) (ed : Editor) : Editor :=
  let fileURL := objectURL (objectURLs (browser (base ed))) in
  let ed := with_base (set_objectURLs (S (objectURLs (browser (base ed))))) ed in
  let ed := with_base (set_videoPlayer_src fileURL) ed in
  let ed := set_listeners (listeners ed ++ [file]) ed in
  with_base (set_sections "none" "block") ed.

(** The callback handed to [setTimeout] by [onFileProcessed]. *)
Definition onFileProcessed_timeout (file : File.t) (ed : Editor) : Editor :=
  showVideoPlayer file (hideProgress ed).

(** [displayVideoInfo], with what the player reports about the video. *)
Definition displayVideoInfo
    (file : File.t) (video_duration : Js.number) (videoWidth videoHeight : Z)
  : Editor -> Editor :=
  set_videoInfo
    (Some {| panel_name := File.name file;
             panel_length := formatDuration video_duration;
             panel_size := (videoWidth, videoHeight);
             panel_bytes := formatFileSize (File.size file);
             panel_format := File.type file |}).

(** [startAnalysis] only raises an alert. *)
Definition startAnalysis (ed : Editor) : Editor := ed.

Definition resetUpload (ed : Editor) : Editor :=
  let ed :=
    if Js.truthy (videoPlayer_src_read (page (base ed))) then
      let ed :=
        with_base (set_revoked (revoked (browser (base ed))
                                  ++ [videoPlayer_src_read (page (base ed))])) ed in
      with_base (set_videoPlayer_src "") ed
    else ed in
  let ed := with_base (set_currentFile None) ed in
  let ed := with_base (set_fileInput_value "") ed in
  let ed := with_base hideError ed in
  let ed := hideProgress ed in
  with_base (set_sections "block" "none") ed.

(** What the browser delivers: a file chosen or dropped, the two buttons,
    a tick of the [i]-th interval with the random number drawn in it, the
    [i]-th pending timeout, and [loadedmetadata] on the player. *)
Inductive Event : Type :=
| FileSelected (file : option File.t)
| StartAnalysisClicked
| ResetClicked
| IntervalFired (i : nat) (random : Q)
| TimeoutFired (i : nat)
| LoadedMetadata (video_duration : Js.number) (videoWidth videoHeight : Z).

(** A cleared interval fires no more; the listeners of [loadedmetadata]
    run in the order they were added. *)
Definition step (ed : Editor) (e : Event) : Editor :=
  match e with
  | FileSelected file => handleFileSelect file ed
  | StartAnalysisClicked => startAnalysis ed
  | ResetClicked => resetUpload ed
  | IntervalFired i random =>
      match intervals ed !! i with
      | Some sim => if sim_running sim then interval_callback i random ed else ed
      | None => ed
      end
  | TimeoutFired i =>
      match timeouts ed !! i with
      | Some file => onFileProcessed_timeout file (set_timeouts (delete i (timeouts ed)) ed)
      | None => ed
      end
  | LoadedMetadata d w h =>
      fold_left (fun ed file => displayVideoInfo file d w h ed) (listeners ed) ed
  end.

Definition run (events : list Event) (ed : Editor) : Editor := fold_left step events ed.

End Legacy.

(** * The vocabulary of the specification *)

(** The four rules as the specification lists them, in its order. *)
Inductive Rule : Type :=
| NonNull
| SizeWithinMaximum
| SupportedExtension
| VideoMediaType.

Definition rules_in_order : list Rule :=
  [NonNull; SizeWithinMaximum; SupportedExtension; VideoMediaType].

(** The extension of a file name: what follows its last dot. A name
    without a dot has no extension. *)
Definition extension (name : string) : option string :=
  match Js.split "." name with
  | [] | [_] => None
  | parts => Some (Js.pop parts)
  end.

(** A missing file satisfies no rule; a name without an extension does
    not satisfy the rule on extensions. *)
Definition satisfies (file : option File.t) (r : Rule) : bool :=
  match file with
  | None => false
  | Some f =>
      match r with
      | NonNull => true
      | SizeWithinMaximum => (File.size f <=? 500 * 2 ^ 20)%Z
      | SupportedExtension =>
          match extension (File.name f) with
          | Some e => bool_decide (Js.toLowerCase e ∈ ["mp4"; "mov"; "avi"; "mkv"; "webm"])
          | None => false
          end
      | VideoMediaType => String.prefix "video/" (File.type f)
      end
  end.

Definition first_violated (file : option File.t) : option Rule :=
  List.find (fun r => negb (satisfies file r)) rules_in_order.

Definition rule_message (r : Rule) : string :=
  match r with
  | NonNull => msg_no_file
  | SizeWithinMaximum => msg_too_large
  | SupportedExtension => msg_bad_format
  | VideoMediaType => msg_not_video
  end.

(** A string of ASCII characters, on which the case mapping of JavaScript
    is the one of [Js.toLowerCase]. *)
Fixpoint is_ascii (s : string) : bool :=
  match s with
  | EmptyString => true
  | String c rest => (nat_of_ascii c <? 128)%nat && is_ascii rest
  end.

(** A file the rules on extensions can be compared on: it has a name with
    an extension of ASCII characters. A missing file has nothing to
    compare. *)
Definition has_ascii_extension (file : option File.t) : Prop :=
  forall f, file = Some f ->
    exists e, extension (File.name f) = Some e /\ is_ascii e = true.

(** What [validateFile] answers for a file, whatever the state: the
    message it shows when it rejects the file. *)
Definition rejection (file : option File.t) : option string :=
  let (valid, st) := validateFile file initial in
  if valid then None else Some (errorMessage_textContent (page st)).

(** The message the specification gives for a failed upload. *)
Definition claimed_upload_message (detail : option string) : string :=
  match detail with
  | Some d => d
  | None => msg_upload_failed
  end.

(** The percent a progress event displays according to the specification:
    the value clamped to the interval from 0 to 100, then rounded. *)
Definition clamp (lo hi q : Q) : Q :=
  if Qle_bool q lo then lo else if Qle_bool hi q then hi else q.

Definition clamped_percent (q : Q) : Z := Js.round (clamp 0 100 q).

(** Idle: no file, no task, no socket reference, no object URL held, the
    upload section on show and the video section, the progress bar and the
    error message hidden. *)
Definition idle (st : State) : Prop :=
  currentFile (session st) = None
  /\ currentTaskId (session st) = None
  /\ websocket (session st) = None
  /\ videoPlayer_src (page st) = ""
  /\ fileInput_value (page st) = ""
  /\ uploadSection_display (page st) = "block"
  /\ videoSection_display (page st) = "none"
  /\ uploadProgress_display (page st) = "none"
  /\ errorMessage_display (page st) = "none".

(** A channel that delivers no further message: [close()] was called on it
    or the connection is gone. *)
Definition closed (s : Socket) : Prop :=
  readyState s = CLOSING \/ readyState s = CLOSED.

(** The calls of [URL.revokeObjectURL] that were given an object URL. *)
Definition object_urls (revocations : list string) : list string :=
  List.filter (fun u => negb (String.eqb u documentURL)) revocations.

(** The object URLs are in order when no object URL has been revoked
    twice, every revocation was given the URL of the document or an
    object URL that was created, and the player holds either nothing or a
    created object URL that has not been revoked. *)
Definition in_order (src : string) (created : nat) (revocations : list string) : Prop :=
  NoDup (object_urls revocations)
  /\ (forall u, u ∈ revocations ->
        u = documentURL \/ exists n, (n < created)%nat /\ u = objectURL n)
  /\ (src = "" \/ ((exists n, (n < created)%nat /\ src = objectURL n) /\ src ∉ revocations)).

Definition urls_in_order (st : State) : Prop :=
  in_order (videoPlayer_src (page st)) (objectURLs (browser st)) (revoked (browser st)).

(** ** Sample inputs *)

Definition clip : File.t := File.mk "clip.MP4" 7340032 "video/mp4".
Definition second_clip : File.t := File.mk "holiday.webm" 2048 "video/webm".
Definition oversized : File.t := File.mk "long.mov" 524288001 "video/quicktime".
Definition undotted : File.t := File.mk "mp4" 1024 "video/mp4".
Definition untyped : File.t := File.mk "mp4" 1024 "".

Definition sample_metadata : Metadata :=
  {| duration := Js.Num 125; width := 1920; height := 1080;
     frame_count := 3000; fps := 24; file_size := 10485760 |}.

Definition sample_result : UploadResult :=
  {| task_id := "abc123"; filename := "clip.MP4"; metadata := sample_metadata |}.

Definition second_result : UploadResult :=
  {| task_id := "def456"; filename := "holiday.webm"; metadata := sample_metadata |}.

(** An upload result whose task id has a [#] in it. *)
Definition odd_result : UploadResult :=
  {| task_id := "a#b"; filename := "clip.MP4"; metadata := sample_metadata |}.

Definition sample_summary : AnalysisSummary :=
  {| detection_count := 3; total_frames := 3000 |}.

(** A file uploaded and accepted, analysis started, the channel open. *)
Definition analysing : State :=
  run [FileSelected (Some clip); UploadSettled 0 (Ok sample_result); TimerFired 0;
       StartAnalysisClicked; SocketOpened 0; AnalyzeSettled 0 (Ok tt)] initial.

(** The same upload, with the start button clicked twice: two channels
    are open. *)
Definition started_twice : State :=
  run [FileSelected (Some clip); UploadSettled 0 (Ok sample_result); TimerFired 0;
       StartAnalysisClicked; SocketOpened 0; AnalyzeSettled 0 (Ok tt);
       StartAnalysisClicked; SocketOpened 1; AnalyzeSettled 0 (Ok tt)] initial.

(** ** Vocabulary of the further properties *)

(** A task id that [if (!this.currentTaskId)] takes for missing. *)
Definition no_task (st : State) : Prop :=
  currentTaskId (session st) = None \/ currentTaskId (session st) = Some "".

(** The socket [startAnalysis] opens for task [t]. *)
Definition socket_for (t : string) : Socket :=
  {| url := "ws://localhost:8000/ws/" +:+ t; readyState := CONNECTING |}.

(** The two events by which the network, not the editor, changes the
    ready state of the socket created [i]-th. *)
Definition network_event_of (i : nat) (e : Event) : bool :=
  match e with
  | SocketOpened ws | SocketClosed ws => Nat.eqb ws i
  | _ => false
  end.

(** The two events from which the editor calls [fetch]. *)
Definition user_request (e : Event) : bool :=
  match e with
  | FileSelected _ | StartAnalysisClicked => true
  | _ => false
  end.

(** The events of the page on which the editor calls [fetch]: a file
    chosen or dropped, and the two editor events of [user_request]. *)
Definition user_dom_request (e : DomEvent) : bool :=
  match e with
  | Change _ | Drop _ => true
  | EditorEvent e => user_request e
  | _ => false
  end.

(** The event on which the status probe calls [fetch]. *)
Definition probe_due (e : DomEvent) : bool :=
  match e with
  | StatusProbeDue => true
  | _ => false
  end.

(** An object URL that was created, is not held by the player and has not
    been revoked. *)
Definition abandoned (u : string) (st : State) : Prop :=
  (exists n, (n < objectURLs (browser st))%nat /\ u = objectURL n)
  /\ videoPlayer_src (page st) <> u
  /\ u ∉ revoked (browser st).

(** Whether a string contains a dot. *)
Fixpoint has_dot (s : string) : bool :=
  match s with
  | EmptyString => false
  | String c s' => Ascii.eqb c "." || has_dot s'
  end.

(** The file [f] under another name. *)
Definition renamed (name : string) (f : File.t) : File.t :=
  File.mk name (File.size f) (File.type f).

(** The simulated processing of the older editor: a tick draws a number
    that [Math.random] can return. *)
Definition drawn (e : Legacy.Event) : Prop :=
  match e with
  | Legacy.IntervalFired _ random => (0 <= random)%Q /\ (random < 1)%Q
  | _ => True
  end.

(** A percent between 0 and 100 as [updateProgress] writes it, or nothing
    written yet. *)
Definition percent_in_range (shown : string) : Prop :=
  shown = "" \/ exists n, (0 <= n <= 100)%Z /\ shown = Js.toString n +:+ "%".

(** The progress of every simulation lies between 0 and 100, and so
    does the percent on the page. *)
Definition progress_in_range (ed : Legacy.Editor) : Prop :=
  Forall (fun sim => (0 <= Legacy.sim_progress sim)%Q /\ (Legacy.sim_progress sim <= 100)%Q)
         (Legacy.intervals ed)
  /\ percent_in_range (progressFill_width (page (Legacy.base ed)))
  /\ percent_in_range (progressText_textContent (page (Legacy.base ed))).

(** A number that [Math.random] can return. *)
Definition random_number (r : Q) : Prop := (0 <= r)%Q /\ (r < 1)%Q.

(** The panel [displayVideoInfo] renders for a file. *)
Definition panel_of (file : File.t) (d : Js.number) (w h : Z) : Legacy.Panel :=
  {| Legacy.panel_name := File.name file;
     Legacy.panel_length := formatDuration d;
     Legacy.panel_size := (w, h);
     Legacy.panel_bytes := formatFileSize (File.size file);
     Legacy.panel_format := File.type file |}.

(** The ticks of one interval, with the numbers drawn. *)
Definition ticks (i : nat) (randoms : list Q) : list Legacy.Event :=
  List.map (Legacy.IntervalFired i) randoms.

(** Some more sample inputs. *)
Definition third_clip : File.t := File.mk "archive.tar.MKV" 4096 "video/x-matroska".

(** The older editor right after [clip] was selected, after six ticks
    that each drew 0.99, and after two files have been shown in turn. *)
Definition processing : Legacy.Editor :=
  Legacy.step Legacy.constructed (Legacy.FileSelected (Some clip)).

Definition six_draws : list Q := [99 # 100; 99 # 100; 99 # 100; 99 # 100; 99 # 100; 99 # 100]%Q.

Definition almost_processed : Legacy.Editor := Legacy.run (ticks 0 six_draws) processing.

Definition two_files_shown : Legacy.Editor :=
  Legacy.run
    ([Legacy.IntervalFired 0 (99 # 100); Legacy.TimeoutFired 0;
      Legacy.FileSelected (Some second_clip)]
       ++ ticks 1 six_draws
       ++ [Legacy.IntervalFired 1 (99 # 100); Legacy.TimeoutFired 0])
    almost_processed.

Definition two_accepted_uploads : State :=
  run [FileSelected (Some clip); UploadSettled 0 (Ok sample_result);
       FileSelected (Some second_clip); UploadSettled 0 (Ok second_result);
       TimerFired 0] initial.

(** * Properties *)

(** Splits a conjunction into its parts, and nothing else. *)
Ltac split_all := repeat match goal with |- _ /\ _ => split end.

(** Settles the parts of a conjunction of closed facts by evaluation. *)
Ltac by_evaluation := split_all; vm_compute; reflexivity.

(** ** Truthiness *)

Lemma truthy_false (s : string) : Js.truthy s = false -> s = "".
Proof.
  unfold Js.truthy. destruct (String.eqb_spec s ""); [trivial | discriminate].
Qed.

(** ** Delivery of channel messages *)

Lemma step_message_open (ws : nat) (s : Socket) (data : ChannelData) (st : State) :
  sockets (browser st) !! ws = Some s ->
  readyState s = OPEN ->
  step st (SocketMessage ws data) = onmessage data st.
Proof. intros Hs Hopen. cbn [step]. rewrite Hs. destruct s as [u r]. cbn in Hopen. subst r. reflexivity. Qed.

Lemma step_message_closed (ws : nat) (s : Socket) (data : ChannelData) (st : State) :
  sockets (browser st) !! ws = Some s ->
  closed s ->
  step st (SocketMessage ws data) = st.
Proof.
  intros Hs Hclosed. cbn [step]. rewrite Hs. destruct s as [u r].
  destruct Hclosed as [H|H]; cbn in H; subst r; reflexivity.
Qed.

(** ** File validation *)

Section Validation.

Lemma includes_elem_of (l : list string) (x : string) :
  Js.includes l x = bool_decide (x ∈ l).
Proof.
  unfold Js.includes. induction l as [|y l IH]; cbn [existsb].
  - symmetry. apply bool_decide_eq_false. apply not_elem_of_nil.
  - rewrite IH. destruct (String.eqb_spec x y) as [->|Hne]; cbn.
    + symmetry. apply bool_decide_eq_true. left.
    + destruct (bool_decide_reflect (x ∈ l)) as [Hin|Hout].
      * symmetry. apply bool_decide_eq_true. now right.
      * symmetry. apply bool_decide_eq_false.
        intros Hin. apply elem_of_cons in Hin as [?|?]; contradiction.
Qed.

Lemma rule_message_inj (r1 r2 : Rule) :
  rule_message r1 = rule_message r2 -> r1 = r2.
Proof.
  destruct r1, r2; intros H; try reflexivity; vm_compute in H; discriminate H.
Qed.

Lemma validateFile_rejection (file : option File.t) (st : State) :
  validateFile file st =
    match rejection file with
    | Some message => (false, showError message st)
    | None => (true, st)
    end.
Proof.
  destruct file as [f|]; [|reflexivity].
  unfold rejection, validateFile.
  destruct (File.size f >? maxFileSize)%Z; [reflexivity|].
  destruct (negb (Js.includes supportedFormats (fileExtension f))); [reflexivity|].
  destruct (negb (Js.startsWith (File.type f) "video/")); reflexivity.
Qed.

Lemma extension_pop (name e : string) :
  extension name = Some e -> Js.pop (Js.split "." name) = e.
Proof.
  unfold extension. destruct (Js.split "." name) as [|a [|b l]]; try discriminate.
  intros [= <-]. reflexivity.
Qed.

Lemma validateFile_first_violated (file : option File.t) (st : State) :
  (forall f, file = Some f -> extension (File.name f) <> None) ->
  validateFile file st =
    match first_violated file with
    | Some r => (false, showError (rule_message r) st)
    | None => (true, st)
    end.
Proof.
  intros Hext. destruct file as [f|]; [|reflexivity].
  specialize (Hext f eq_refl).
  destruct (extension (File.name f)) as [e|] eqn:He; [clear Hext | contradiction].
  unfold validateFile, first_violated, rules_in_order. cbn [List.find satisfies negb].
  rewrite He. change (500 * 2 ^ 20)%Z with maxFileSize.
  rewrite Z.gtb_ltb, Z.ltb_antisym.
  destruct (File.size f <=? maxFileSize)%Z; cbn [negb]; [|reflexivity].
  unfold fileExtension. rewrite (extension_pop _ _ He).
  rewrite <- includes_elem_of. fold supportedFormats.
  destruct (Js.includes supportedFormats (Js.toLowerCase e)); cbn [negb]; [|reflexivity].
  unfold Js.startsWith.
  destruct (String.prefix "video/" (File.type f)); reflexivity.
Qed.

Lemma oversized_first_violated (f : File.t) :
  (File.size f > maxFileSize)%Z -> first_violated (Some f) = Some SizeWithinMaximum.
Proof.
  intros Hbig. unfold first_violated, rules_in_order. cbn [List.find satisfies negb].
  change (500 * 2 ^ 20)%Z with maxFileSize.
  destruct (Z.leb_spec (File.size f) maxFileSize); [lia | reflexivity].
Qed.

Lemma oversized_rejection (f : File.t) :
  (File.size f > maxFileSize)%Z -> rejection (Some f) = Some msg_too_large.
Proof.
  intros Hbig. unfold rejection, validateFile.
  destruct (Z.gtb_spec (File.size f) maxFileSize); [reflexivity | lia].
Qed.

Lemma handleFileSelect_rejected (file : option File.t) (st : State) :
  fst (validateFile file st) = false ->
  handleFileSelect file st = snd (validateFile file st).
Proof.
  unfold handleFileSelect. destruct (validateFile file st) as [valid st'].
  cbn. intros ->. reflexivity.
Qed.

Lemma validateFile_session (file : option File.t) (st : State) :
  session (snd (validateFile file st)) = session st
  /\ browser (snd (validateFile file st)) = browser st.
Proof.
  rewrite validateFile_rejection.
  destruct (rejection file); split; reflexivity.
Qed.

(** C3 (the code departs from the claim). The rule on extensions is
    checked on what [split('.').pop()] returns, which is the whole name
    when the name has no dot. For the file called [mp4] with an empty
    media type the first rule violated is the one on extensions, yet
    [validateFile] shows the message of the rule on media types; with the
    media type [video/mp4] the same name passes validation although that
    rule is violated. For every file whose name has an extension (of
    ASCII characters), and for a missing file, [validateFile] does check
    the four rules in the order non-null, size at most 500 MiB, supported
    extension, media type starting with "video/": it fails exactly when
    some rule is violated, showing the message of the first such rule and
    nothing else, and the four messages are distinct. A file larger than
    the maximum, whatever its name, makes [handleFileSelect] stop with the
    size message, without any [fetch]. *)
Theorem validateFile_rule_order_breaks_without_dot (st : State) :
  extension (File.name untyped) = None
  /\ first_violated (Some untyped) = Some SupportedExtension
  /\ validateFile (Some untyped) st = (false, showError (rule_message VideoMediaType) st)
  /\ first_violated (Some undotted) = Some SupportedExtension
  /\ validateFile (Some undotted) st = (true, st)
  /\ (forall file,
        has_ascii_extension file ->
        validateFile file st =
          match first_violated file with
          | Some r => (false, showError (rule_message r) st)
          | None => (true, st)
          end)
  /\ (forall r1 r2, rule_message r1 = rule_message r2 -> r1 = r2)
  /\ (forall f,
        (File.size f > maxFileSize)%Z ->
        first_violated (Some f) = Some SizeWithinMaximum
        /\ fst (validateFile (Some f) st) = false
        /\ handleFileSelect (Some f) st = showError msg_too_large st
        /\ requests (browser (handleFileSelect (Some f) st)) = requests (browser st)
        /\ inflight (browser (handleFileSelect (Some f) st)) = inflight (browser st)).
Proof.
  do 5 (split; [reflexivity|]).
  split.
  { intros file Hext. apply validateFile_first_violated.
    intros f Hf. destruct (Hext f Hf) as (e & -> & _). discriminate. }
  split; [apply rule_message_inj|].
  intros f Hbig.
  assert (Hv : validateFile (Some f) st = (false, showError msg_too_large st)).
  { rewrite validateFile_rejection, (oversized_rejection f Hbig). reflexivity. }
  assert (Hh : handleFileSelect (Some f) st = showError msg_too_large st).
  { rewrite handleFileSelect_rejected; rewrite Hv; reflexivity. }
  rewrite Hv, Hh. split; [exact (oversized_first_violated f Hbig)|].
  split_all; reflexivity.
Qed.

(** C10. When validation fails, [handleFileSelect] leaves the editor's
    own fields (current file, current task id, socket reference) and the
    whole browser side (sockets, requests issued and in flight, timers,
    object URLs) as they were: only the error message is shown. *)
Theorem handleFileSelect_failed_validation_is_atomic
    (file : option File.t) (st : State) :
  fst (validateFile file st) = false ->
  currentFile (session (handleFileSelect file st)) = currentFile (session st)
  /\ currentTaskId (session (handleFileSelect file st)) = currentTaskId (session st)
  /\ websocket (session (handleFileSelect file st)) = websocket (session st)
  /\ browser (handleFileSelect file st) = browser st
  /\ errorMessage_display (page (handleFileSelect file st)) = "block".
Proof.
  intros Hfail. rewrite (handleFileSelect_rejected file st Hfail).
  destruct (validateFile_session file st) as [-> ->].
  split_all; try reflexivity.
  revert Hfail. rewrite validateFile_rejection.
  destruct (rejection file); [reflexivity | discriminate].
Qed.

End Validation.

(** Witness of C3: on the fresh page, a file with an extension is judged
    by the rules in order, and a file of 500 MiB and one byte is stopped
    by the rule on size before any request. *)
Lemma validateFile_rule_order_breaks_without_dot_witness :
  has_ascii_extension (Some clip)
  /\ validateFile (Some clip) initial = (true, initial)
  /\ (File.size oversized > maxFileSize)%Z
  /\ requests (browser (handleFileSelect (Some oversized) initial)) = []
  /\ validateFile (Some untyped) initial = (false, showError msg_not_video initial).
Proof.
  pose proof (validateFile_rule_order_breaks_without_dot initial)
    as (_ & _ & Huntyped & _ & _ & Hdotted & _ & Hbig).
  assert (Hclip : has_ascii_extension (Some clip)).
  { intros f [= <-]. exists "MP4". split; reflexivity. }
  assert (Hsize : (File.size oversized > maxFileSize)%Z) by (vm_compute; reflexivity).
  destruct (Hbig oversized Hsize) as (_ & _ & _ & Hreq & _).
  split; [exact Hclip|].
  split; [rewrite (Hdotted (Some clip) Hclip); reflexivity|].
  split; [exact Hsize|].
  split; [exact Hreq | exact Huntyped].
Defined.

(** Witness of C10: no file at all, while an analysis is running. *)
Lemma handleFileSelect_failed_validation_is_atomic_witness :
  fst (validateFile None analysing) = false
  /\ currentTaskId (session (handleFileSelect None analysing)) = Some "abc123"
  /\ websocket (session (handleFileSelect None analysing)) = Some 0%nat
  /\ browser (handleFileSelect None analysing) = browser analysing.
Proof.
  assert (Hfail : fst (validateFile None analysing) = false) by reflexivity.
  destruct (handleFileSelect_failed_validation_is_atomic None analysing Hfail)
    as (_ & Htask & Hws & Hbrowser & _).
  split; [exact Hfail|]. split; [exact Htask|]. split; [exact Hws | exact Hbrowser].
Defined.

Lemma validateFile_extension_outside (f : File.t) (st : State) :
  Js.includes supportedFormats (fileExtension f) = false ->
  fst (validateFile (Some f) st) = false.
Proof.
  intros Hout. unfold validateFile.
  destruct (File.size f >? maxFileSize)%Z; [reflexivity|].
  rewrite Hout. reflexivity.
Qed.

(** C4 (the code departs from the claim). [split('.').pop()] returns the
    whole name when the name has no dot, so a file called [mp4], which has
    no extension, passes the extension rule; with a video media type and an
    admissible size it passes validation and is uploaded. A file whose
    name has a dot is rejected whenever its extension, in lower case, is
    outside the supported set. *)
Theorem validateFile_accepts_name_without_dot (st : State) :
  extension (File.name undotted) = None
  /\ validateFile (Some undotted) st = (true, st)
  /\ requests (browser (handleFileSelect (Some undotted) st))
     = (requests (browser st) ++ [PostUpload undotted])%list
  /\ currentFile (session (handleFileSelect (Some undotted) st)) = Some undotted
  /\ (forall f e,
        extension (File.name f) = Some e ->
        Js.toLowerCase e ∉ supportedFormats ->
        fst (validateFile (Some f) st) = false).
Proof.
  split_all; try reflexivity.
  intros f e He Hout. apply validateFile_extension_outside.
  unfold fileExtension. rewrite (extension_pop _ _ He).
  rewrite includes_elem_of. apply bool_decide_eq_false. exact Hout.
Qed.

(** ** Progress events *)

Section Progress.

Variable st : State.

Lemma round_proper (p q : Q) : (p == q)%Q -> Js.round p = Js.round q.
Proof. intros Heq. unfold Js.round. apply Qfloor_comp. rewrite Heq. reflexivity. Qed.

Lemma clamped_percent_in_range (p : Q) :
  (0 <= p)%Q -> (p <= 100)%Q -> clamped_percent p = Js.round p.
Proof.
  intros Hlo Hhi. unfold clamped_percent, clamp.
  destruct (Qle_bool p 0) eqn:E0.
  - apply Qle_bool_iff in E0. apply round_proper. apply Qle_antisym; assumption.
  - destruct (Qle_bool 100 p) eqn:E100; [|reflexivity].
    apply Qle_bool_iff in E100. apply round_proper. apply Qle_antisym; assumption.
Qed.

(** C1 as the code has it. A progress event rounds the progress value to
    the nearest integer and does not clamp it. The bar's width becomes
    that integer followed by "%" when it is not negative; for a negative
    one the page ignores the assignment and the bar keeps its width. The
    text becomes the event's message, or the same percent (negative or
    not) when the message is empty. The editor's fields, the browser side
    and every other element of the page stay as they were. For a value
    between 0 and 100 the percent is the clamped and rounded one. This is
    what a progress message does when it is delivered on an open socket.
    The statement is for values that [toString] prints in plain decimal. *)
Theorem progress_event_displays_rounded_value (p : Q) (message : string) :
  (- 10 ^ 21 < Js.round p < 10 ^ 21)%Z ->
  let st' := onmessage (Progress p message) st in
  progressFill_width (page st')
  = (if (Js.round p <? 0)%Z then progressFill_width (page st)
     else Js.toString (Js.round p) +:+ "%")
  /\ progressText_textContent (page st')
     = (if String.eqb message "" then Js.toString (Js.round p) +:+ "%" else message)
  /\ session st' = session st
  /\ browser st' = browser st
  /\ uploadProgress_display (page st') = uploadProgress_display (page st)
  /\ errorMessage_display (page st') = errorMessage_display (page st)
  /\ errorMessage_textContent (page st') = errorMessage_textContent (page st)
  /\ videoInfo_children (page st') = videoInfo_children (page st)
  /\ ((0 <= p)%Q -> (p <= 100)%Q ->
      Js.round p = clamped_percent p
      /\ progressFill_width (page st') = Js.toString (clamped_percent p) +:+ "%")
  /\ (forall ws s,
        sockets (browser st) !! ws = Some s ->
        readyState s = OPEN ->
        step st (SocketMessage ws (Progress p message)) = st').
Proof.
  intros _. cbn zeta. split_all; try reflexivity.
  - cbn. unfold Js.truthy. destruct (String.eqb message ""); reflexivity.
  - intros Hlo Hhi. rewrite clamped_percent_in_range by assumption.
    split; [reflexivity|].
    assert (Hround : (0 <= Js.round p)%Z).
    { unfold Js.round. change 0%Z with (Qfloor 0). apply Qfloor_resp_le.
      apply (Qle_trans _ p); [assumption|]. rewrite <- (Qplus_0_r p) at 1.
      apply Qplus_le_r. discriminate. }
    apply Z.ltb_ge in Hround.
    unfold onmessage, updateProgress. cbn -[Js.round Js.toString].
    rewrite Hround. reflexivity.
  - intros ws s. apply step_message_open.
Qed.

End Progress.

(** Counterexample to C1: 143 is shown as "143%", where clamping would
    give "100%"; for -5 the text reads "-5%", where clamping would give
    "0%", and a bar that stood at 47% stays there. *)
Lemma progress_outside_range_not_clamped :
  let at_47 := onmessage (Progress (93 # 2) "") analysing in
  progressFill_width (page (onmessage (Progress 143 "") analysing)) = "143%"
  /\ progressText_textContent (page (onmessage (Progress 143 "") analysing)) = "143%"
  /\ Js.toString (clamped_percent 143) +:+ "%" = "100%"
  /\ progressText_textContent (page (onmessage (Progress (-5) "") analysing)) = "-5%"
  /\ Js.toString (clamped_percent (-5)) +:+ "%" = "0%"
  /\ progressFill_width (page at_47) = "47%"
  /\ progressFill_width (page (onmessage (Progress (-5) "") at_47)) = "47%"
  /\ ~ (forall p, progressFill_width (page (onmessage (Progress p "") analysing))
                  = Js.toString (clamped_percent p) +:+ "%")
  /\ ~ (forall p, progressText_textContent (page (onmessage (Progress p "") analysing))
                  = Js.toString (clamped_percent p) +:+ "%").
Proof.
  cbn zeta. split_all; try (vm_compute; reflexivity).
  - intros Hall. specialize (Hall 143%Q). vm_compute in Hall. discriminate Hall.
  - intros Hall. specialize (Hall (-5)%Q). vm_compute in Hall. discriminate Hall.
Qed.

(** Witness of C1 as amended: 46.5 rounds to 47, inside the range. *)
Lemma progress_event_displays_rounded_value_witness :
  (- 10 ^ 21 < Js.round (93 # 2) < 10 ^ 21)%Z
  /\ progressFill_width (page (onmessage (Progress (93 # 2) "frames") analysing)) = "47%"
  /\ progressText_textContent (page (onmessage (Progress (93 # 2) "frames") analysing))
     = "frames"
  /\ clamped_percent (93 # 2) = 47%Z.
Proof.
  assert (Hplain : (- 10 ^ 21 < Js.round (93 # 2) < 10 ^ 21)%Z)
    by (split; vm_compute; reflexivity).
  pose proof (progress_event_displays_rounded_value analysing (93 # 2) "frames" Hplain)
    as (Hw & Ht & _ & _ & _ & _ & _ & _ & Hrange & _).
  split; [exact Hplain|]. split; [exact Hw|]. split; [exact Ht|].
  destruct Hrange as [<- _]; [discriminate | discriminate | reflexivity].
Defined.

(** ** Terminal events of the channel *)

Lemma close_socket_closed (s : Socket) : closed (close_socket s).
Proof. unfold closed, close_socket. destruct s as [u []]; cbn; auto. Qed.

Lemma close_lookup (ws : nat) (s : Socket) (st : State) :
  sockets (browser st) !! ws = Some s ->
  sockets (browser (close ws st)) !! ws = Some (close_socket s).
Proof. intros Hs. cbn. rewrite list_lookup_alter_eq, Hs. reflexivity. Qed.

Lemma onAnalysisComplete_closes (result : AnalysisSummary) (ws : nat) (s : Socket) (st : State) :
  websocket (session st) = Some ws ->
  sockets (browser st) !! ws = Some s ->
  sockets (browser (onAnalysisComplete result st)) !! ws = Some (close_socket s).
Proof.
  intros Hws Hs. unfold onAnalysisComplete. cbn. rewrite Hws.
  apply close_lookup. exact Hs.
Qed.

Lemma error_event_keeps_browser (message : string) (st : State) :
  browser (onmessage (Error message) st) = browser st
  /\ session (onmessage (Error message) st) = session st.
Proof. split; reflexivity. Qed.

Lemma error_then_complete (ws : nat) (s : Socket) (message : string)
    (result : AnalysisSummary) (st : State) :
  sockets (browser st) !! ws = Some s ->
  readyState s = OPEN ->
  let st1 := step st (SocketMessage ws (Error message)) in
  let st2 := step st1 (SocketMessage ws (Complete result)) in
  sockets (browser st1) !! ws = Some s
  /\ errorMessage_textContent (page st1) = message
  /\ videoInfo_children (page st2) = (videoInfo_children (page st) ++ [result])%list.
Proof.
  intros Hs Hopen. cbn zeta.
  rewrite (step_message_open ws s (Error message) st Hs Hopen).
  split; [exact Hs|]. split; [reflexivity|].
  rewrite (step_message_open ws s (Complete result) (onmessage (Error message) st) Hs Hopen).
  unfold onmessage, onAnalysisComplete. cbn.
  destruct (websocket (session st)); reflexivity.
Qed.

Lemma complete_then_dropped (ws : nat) (s : Socket) (result : AnalysisSummary)
    (data : ChannelData) (st : State) :
  websocket (session st) = Some ws ->
  sockets (browser st) !! ws = Some s ->
  readyState s = OPEN ->
  let st1 := step st (SocketMessage ws (Complete result)) in
  (exists s', sockets (browser st1) !! ws = Some s' /\ closed s')
  /\ step st1 (SocketMessage ws data) = st1.
Proof.
  intros Hws Hs Hopen. cbn zeta.
  rewrite (step_message_open ws s (Complete result) st Hs Hopen).
  pose proof (onAnalysisComplete_closes result ws s st Hws Hs) as Hclosed.
  split.
  - exists (close_socket s). split; [exact Hclosed | apply close_socket_closed].
  - apply (step_message_closed ws (close_socket s)); [exact Hclosed|].
    apply close_socket_closed.
Qed.

(** C2 (the code departs from the claim). The [complete] branch closes the
    socket, so later messages on it are dropped; the [error] branch shows
    the message and hides the progress bar but never calls [close()]. On
    an open channel an [error] event therefore leaves the channel open,
    and a [complete] event that follows it is handled as well: two
    terminal events take effect for the same task. After a [complete]
    event on the socket the editor refers to, the channel is closed and
    whatever arrives later is dropped. *)
Theorem error_event_leaves_channel_open :
  let st1 := step analysing (SocketMessage 0 (Error "model failure")) in
  let st2 := step st1 (SocketMessage 0 (Complete sample_summary)) in
  (forall message st,
      browser (onmessage (Error message) st) = browser st
      /\ session (onmessage (Error message) st) = session st)
  /\ (forall ws s message result st,
        sockets (browser st) !! ws = Some s ->
        readyState s = OPEN ->
        sockets (browser (step st (SocketMessage ws (Error message)))) !! ws = Some s
        /\ errorMessage_textContent (page (step st (SocketMessage ws (Error message))))
           = message
        /\ videoInfo_children
             (page (step (step st (SocketMessage ws (Error message)))
                         (SocketMessage ws (Complete result))))
           = (videoInfo_children (page st) ++ [result])%list)
  /\ (forall ws s result data st,
        websocket (session st) = Some ws ->
        sockets (browser st) !! ws = Some s ->
        readyState s = OPEN ->
        step (step st (SocketMessage ws (Complete result))) (SocketMessage ws data)
        = step st (SocketMessage ws (Complete result)))
  /\ readyState <$> sockets (browser analysing) !! 0%nat = Some OPEN
  /\ errorMessage_textContent (page st1) = "model failure"
  /\ readyState <$> sockets (browser st1) !! 0%nat = Some OPEN
  /\ videoInfo_children (page analysing) = []
  /\ videoInfo_children (page st2) = [sample_summary]
  /\ readyState <$> sockets (browser st2) !! 0%nat = Some CLOSING
  /\ step st2 (SocketMessage 0 (Error "late")) = st2
  /\ step st2 (SocketMessage 0 (Complete sample_summary)) = st2.
Proof.
  cbn zeta. split; [exact error_event_keeps_browser|].
  split; [intros ws s message result st; apply error_then_complete|].
  split.
  { intros ws s result data st Hws Hs Hopen.
    apply (complete_then_dropped ws s result data st Hws Hs Hopen). }
  by_evaluation.
Qed.

(** ** Upload responses *)

Section UploadResponse.

Variables (file : File.t) (st : State).

Lemma upload_failure_surfaced (o : Outcome UploadResult) (message : string) :
  uploadFileToServer_resume file o st = hideProgress (showError message st) ->
  let st' := uploadFileToServer_resume file o st in
  errorMessage_textContent (page st') = message
  /\ errorMessage_display (page st') = "block"
  /\ uploadProgress_display (page st') = "none"
  /\ session st' = session st
  /\ browser st' = browser st.
Proof. cbn zeta. intros ->. split_all; reflexivity. Qed.

(** C5 as the code has it. Whatever goes wrong after [fetch] reaches one
    [catch] block, which shows the message of the error. For a response
    that is not [ok] and whose body is a JSON object the message is the
    body's [detail], or the fixed message when [detail] is missing or
    empty ([||] treats the two alike); when the body cannot be read as
    JSON the message is the one of the parse error, neither [detail] nor
    the fixed message; a rejected [fetch] ends with the message of the
    rejection. In each case the message is put on show, the progress bar
    is hidden, and neither the editor's fields nor the browser side
    change: no request is issued again, no timer is set. Settling a
    request never issues a request. *)
Theorem upload_failure_shows_message_without_retry :
  (forall detail,
      let st' := uploadFileToServer_resume file (NotOk detail) st in
      errorMessage_textContent (page st')
        = match detail with
          | Some d => if String.eqb d "" then msg_upload_failed else d
          | None => msg_upload_failed
          end
      /\ errorMessage_display (page st') = "block"
      /\ uploadProgress_display (page st') = "none"
      /\ session st' = session st
      /\ browser st' = browser st)
  /\ (forall ok message,
        let st' := uploadFileToServer_resume file (BadBody ok message) st in
        errorMessage_textContent (page st') = message
        /\ errorMessage_display (page st') = "block"
        /\ uploadProgress_display (page st') = "none"
        /\ session st' = session st
        /\ browser st' = browser st)
  /\ (forall message,
        let st' := uploadFileToServer_resume file (NetworkError message) st in
        errorMessage_textContent (page st') = message
        /\ errorMessage_display (page st') = "block"
        /\ uploadProgress_display (page st') = "none"
        /\ session st' = session st
        /\ browser st' = browser st)
  /\ (forall i o,
        requests (browser (step st (UploadSettled i o))) = requests (browser st)).
Proof.
  split; [|split; [|split]].
  - intros detail.
    replace (match detail with
             | Some d => if String.eqb d "" then msg_upload_failed else d
             | None => msg_upload_failed
             end) with (Js.or_else detail msg_upload_failed).
    + apply upload_failure_surfaced. reflexivity.
    + unfold Js.or_else, Js.truthy. destruct detail as [d|]; [|reflexivity].
      destruct (String.eqb d ""); reflexivity.
  - intros ok message. apply upload_failure_surfaced. reflexivity.
  - intros message. apply upload_failure_surfaced. reflexivity.
  - intros i o. cbn [step].
    destruct (inflight (browser st) !! i) as [[f|t]|]; try reflexivity.
    destruct o; reflexivity.
Qed.


End UploadResponse.

(** Witness of C5 as amended: the server answers 413 with a detail
    message. *)
Lemma upload_failure_shows_message_without_retry_witness :
  let st := step initial (FileSelected (Some clip)) in
  errorMessage_textContent
    (page (uploadFileToServer_resume clip (NotOk (Some "File too large")) st))
  = "File too large"
  /\ requests (browser (step st (UploadSettled 0 (NotOk (Some "File too large")))))
     = [PostUpload clip].
Proof.
  cbn zeta.
  pose proof (upload_failure_shows_message_without_retry clip
                (step initial (FileSelected (Some clip)))) as (Hdetail & _ & _ & Hreq).
  destruct (Hdetail (Some "File too large")) as (Htext & _).
  split; [exact Htext|].
  rewrite Hreq. reflexivity.
Defined.

(** Counterexample to C5: a gateway answers 502 with the plain text
    [Internal Server Error], and the message shown is the one of the
    parse error; a server answers 500 with an empty [detail], and the
    message shown is the fixed one, not the detail supplied. In both cases the response has a status
    that is not a success, and the message is not the one the claim
    gives. *)
Lemma unreadable_error_body_shows_parse_error :
  let st := step initial (FileSelected (Some clip)) in
  let parse_error := "Unexpected token I in JSON at position 0" in
  let gateway := step st (UploadSettled 0 (BadBody false parse_error)) in
  let blank := step st (UploadSettled 0 (NotOk (Some ""))) in
  errorMessage_textContent (page gateway) = parse_error
  /\ errorMessage_textContent (page gateway) <> msg_upload_failed
  /\ errorMessage_textContent (page blank) = msg_upload_failed
  /\ errorMessage_textContent (page blank) <> claimed_upload_message (Some "")
  /\ ~ (forall detail,
          errorMessage_textContent
            (page (step st (UploadSettled 0 (NotOk detail))))
          = claimed_upload_message detail).
Proof.
  cbn zeta. split_all; try (vm_compute; reflexivity); try (vm_compute; discriminate).
  intros Hall. specialize (Hall (Some "")). vm_compute in Hall. discriminate Hall.
Qed.



(** ** Selecting a new file, and resetting *)

Section Reset.

Lemma read_falsy (p : Page) :
  Js.truthy (videoPlayer_src_read p) = false ->
  videoPlayer_src p = "" /\ videoPlayer_src_present p = false.
Proof.
  unfold videoPlayer_src_read.
  destruct (Js.truthy (videoPlayer_src p)) eqn:Hsrc; [congruence|].
  destruct (videoPlayer_src_present p); [discriminate|].
  intros _. split; [apply truthy_false; exact Hsrc | reflexivity].
Qed.

Lemma read_cases (p : Page) :
  (if Js.truthy (videoPlayer_src_read p) then [videoPlayer_src_read p] else [])
  = (if Js.truthy (videoPlayer_src p) then [videoPlayer_src p]
     else if videoPlayer_src_present p then [documentURL] else []).
Proof.
  unfold videoPlayer_src_read.
  destruct (Js.truthy (videoPlayer_src p)) eqn:Hsrc; [rewrite Hsrc; reflexivity|].
  destruct (videoPlayer_src_present p); reflexivity.
Qed.

Lemma resetUpload_revoked (st : State) :
  revoked (browser (resetUpload st))
  = (revoked (browser st)
       ++ (if Js.truthy (videoPlayer_src_read (page st))
           then [videoPlayer_src_read (page st)]
           else []))%list.
Proof.
  destruct st as [[cf ct ws] pg br]. unfold resetUpload. cbn [page browser].
  destruct (Js.truthy (videoPlayer_src_read pg)); cbn;
    destruct ws; cbn; rewrite ?app_nil_r; reflexivity.
Qed.

Lemma resetUpload_idle (st : State) : idle (resetUpload st).
Proof.
  destruct st as [[cf ct ws] pg br]. unfold idle, resetUpload. cbn [page browser].
  destruct (Js.truthy (videoPlayer_src_read pg)) eqn:Hsrc; cbn;
    destruct ws; cbn; split_all; try reflexivity;
    apply (read_falsy pg Hsrc).
Qed.

Lemma resetUpload_closes (st : State) (ws : nat) (s : Socket) :
  websocket (session st) = Some ws ->
  sockets (browser st) !! ws = Some s ->
  sockets (browser (resetUpload st)) !! ws = Some (close_socket s).
Proof.
  destruct st as [[cf ct w] pg br]. cbn. intros -> Hs. unfold resetUpload.
  cbn [page browser].
  destruct (Js.truthy (videoPlayer_src_read pg)); cbn;
    rewrite list_lookup_alter_eq, Hs; reflexivity.
Qed.

Lemma resetUpload_sockets (st : State) :
  sockets (browser (resetUpload st))
  = match websocket (session st) with
    | Some ws => alter close_socket ws (sockets (browser st))
    | None => sockets (browser st)
    end.
Proof.
  destruct st as [[cf ct ws] pg br]. unfold resetUpload. cbn [page browser].
  destruct (Js.truthy (videoPlayer_src_read pg)); cbn; destruct ws; reflexivity.
Qed.

Lemma resetUpload_others (st : State) (i : nat) :
  websocket (session st) <> Some i ->
  sockets (browser (resetUpload st)) !! i = sockets (browser st) !! i.
Proof.
  intros Hne. rewrite resetUpload_sockets.
  destruct (websocket (session st)) as [ws|]; [|reflexivity].
  apply list_lookup_alter_ne. congruence.
Qed.

Lemma resetUpload_keeps (st : State) :
  videoInfo_innerHTML (page (resetUpload st)) = videoInfo_innerHTML (page st)
  /\ videoInfo_children (page (resetUpload st)) = videoInfo_children (page st)
  /\ requests (browser (resetUpload st)) = requests (browser st)
  /\ inflight (browser (resetUpload st)) = inflight (browser st)
  /\ timers (browser (resetUpload st)) = timers (browser st)
  /\ objectURLs (browser (resetUpload st)) = objectURLs (browser st).
Proof.
  destruct st as [[cf ct ws] pg br]. unfold resetUpload. cbn [page browser].
  destruct (Js.truthy (videoPlayer_src_read pg)); cbn;
    destruct ws; split_all; reflexivity.
Qed.

Lemma resetUpload_again (st : State) :
  session (resetUpload (resetUpload st)) = session (resetUpload st)
  /\ page (resetUpload (resetUpload st)) = page (resetUpload st)
  /\ sockets (browser (resetUpload (resetUpload st))) = sockets (browser (resetUpload st))
  /\ revoked (browser (resetUpload (resetUpload st)))
     = (revoked (browser (resetUpload st))
          ++ (if Js.truthy (videoPlayer_src_read (page st)) then [documentURL] else []))%list.
Proof.
  destruct st as [[cf ct ws] pg br].
  destruct pg as [fv upd pw pt et ed us vs src present html children].
  unfold resetUpload, videoPlayer_src_read, Js.truthy. cbn.
  destruct (String.eqb src "") eqn:Hsrc; cbn;
    destruct present; cbn; destruct ws; cbn; rewrite ?Hsrc; cbn;
    rewrite ?app_nil_r; split_all; reflexivity.
Qed.

(** *** Object URLs along a run *)

Lemma toString_inj (a b : Z) : Js.toString a = Js.toString b -> a = b.
Proof.
  unfold Js.toString. intros Heq.
  assert (Hparse : forall z, NilZero.int_of_string (NilZero.string_of_int (Z.to_int z))
                             = Some (Z.to_int z)).
  { intros z. apply NilZero.isi; destruct z; cbn; try discriminate;
      intros [= H]; exact (DecimalPos.Unsigned.to_uint_nonnil _ H). }
  pose proof (Hparse a) as Ha. rewrite Heq, Hparse in Ha.
  injection Ha as Hab.
  rewrite <- (DecimalZ.of_to a), <- (DecimalZ.of_to b), Hab. reflexivity.
Qed.

Lemma objectURL_inj (n m : nat) : objectURL n = objectURL m -> n = m.
Proof.
  unfold objectURL. cbn. intros [= H]. apply toString_inj in H. lia.
Qed.

Lemma objectURL_not_document (n : nat) : objectURL n <> documentURL.
Proof. unfold objectURL, documentURL. cbn. discriminate. Qed.

Lemma object_urls_app (l l' : list string) :
  object_urls (l ++ l') = (object_urls l ++ object_urls l')%list.
Proof. apply List.filter_app. Qed.

Lemma object_urls_elem (u : string) (l : list string) : u ∈ object_urls l -> u ∈ l.
Proof.
  unfold object_urls. rewrite !list_elem_of_In, List.filter_In. intros [Hin _]. exact Hin.
Qed.

Lemma object_urls_object (n : nat) : object_urls [objectURL n] = [objectURL n].
Proof.
  unfold object_urls. cbn [List.filter].
  destruct (String.eqb_spec (objectURL n) documentURL) as [Heq|_]; [|reflexivity].
  exfalso. exact (objectURL_not_document n Heq).
Qed.

Lemma in_order_create (src : string) (created : nat) (revocations : list string) :
  in_order src created revocations ->
  in_order (objectURL created) (S created) revocations.
Proof.
  intros (Hnodup & Hrev & _). split; [exact Hnodup|]. split.
  - intros u Hu. destruct (Hrev u Hu) as [->|(n & Hn & ->)]; [left; reflexivity|].
    right. exists n. split; [lia | reflexivity].
  - right. split; [exists created; split; [lia | reflexivity]|].
    intros Hin. destruct (Hrev _ Hin) as [Heq|(n & Hn & Heq)].
    + exact (objectURL_not_document _ Heq).
    + apply objectURL_inj in Heq. lia.
Qed.

Lemma in_order_revoke (src : string) (present : bool) (created : nat)
    (revocations : list string) :
  in_order src created revocations ->
  in_order "" created
    (revocations ++ (if Js.truthy src then [src]
                     else if present then [documentURL] else [])).
Proof.
  intros (Hnodup & Hrev & Hsrc).
  destruct (Js.truthy src) eqn:Htruthy.
  - destruct Hsrc as [->|[(n & Hn & Heq) Hnew]]; [discriminate Htruthy|].
    split; [|split; [|left; reflexivity]].
    + rewrite object_urls_app. subst src. rewrite object_urls_object.
      apply NoDup_app. split; [exact Hnodup|]. split.
      * intros u Hu Hsingle. apply list_elem_of_singleton in Hsingle. subst u.
        apply Hnew. apply object_urls_elem. exact Hu.
      * apply NoDup_singleton.
    + intros u Hu. apply elem_of_app in Hu as [Hu|Hu]; [exact (Hrev u Hu)|].
      apply list_elem_of_singleton in Hu. subst u. right. exists n. split; assumption.
  - destruct present; [|rewrite app_nil_r].
    + split; [|split; [|left; reflexivity]].
      * rewrite object_urls_app. change (object_urls [documentURL]) with (@nil string).
        rewrite app_nil_r. exact Hnodup.
      * intros u Hu. apply elem_of_app in Hu as [Hu|Hu]; [exact (Hrev u Hu)|].
        apply list_elem_of_singleton in Hu. left. exact Hu.
    + split; [exact Hnodup|]. split; [exact Hrev | left; reflexivity].
Qed.

Lemma handleFileSelect_page_src (file : option File.t) (st : State) :
  videoPlayer_src (page (handleFileSelect file st)) = videoPlayer_src (page st)
  /\ objectURLs (browser (handleFileSelect file st)) = objectURLs (browser st)
  /\ revoked (browser (handleFileSelect file st)) = revoked (browser st).
Proof.
  unfold handleFileSelect. rewrite validateFile_rejection.
  destruct (rejection file); [split_all; reflexivity|].
  destruct file; split_all; reflexivity.
Qed.

Lemma startAnalysis_cases (st : State) :
  (exists message, startAnalysis st = showError message st)
  \/ (exists t,
        currentTaskId (session st) = Some t
        /\ has_fragment t = false
        /\ startAnalysis st
           = fetch (PostAnalyze t)
               (set_websocket (Some (length (sockets (browser st))))
                  (set_sockets (sockets (browser st) ++ [socket_for t])%list st))).
Proof.
  unfold startAnalysis, connectWebSocket.
  destruct (currentTaskId (session st)) as [t|]; [|left; eexists; reflexivity].
  destruct (Js.truthy t); [|left; eexists; reflexivity].
  change (has_fragment ("ws://localhost:8000/ws/" +:+ default "null" (Some t)))
    with (has_fragment t).
  destruct (has_fragment t) eqn:Hfragment; [left; eexists; reflexivity|].
  right. exists t. split; [reflexivity|]. split; [exact Hfragment | reflexivity].
Qed.

Lemma step_urls_in_order (st : State) (e : Event) :
  urls_in_order st -> urls_in_order (step st e).
Proof.
  unfold urls_in_order. intros Hst. destruct e as [file| | |i o|i o|i|ws|ws data|ws|ws]; cbn [step].
  - destruct (handleFileSelect_page_src file st) as (-> & -> & ->). exact Hst.
  - destruct (startAnalysis_cases st) as [[message ->]|(t & _ & _ & ->)]; exact Hst.
  - rewrite resetUpload_revoked, read_cases.
    replace (videoPlayer_src (page (resetUpload st))) with "".
    + replace (objectURLs (browser (resetUpload st))) with (objectURLs (browser st)).
      * apply in_order_revoke. exact Hst.
      * symmetry. apply resetUpload_keeps.
    + symmetry. destruct (resetUpload_idle st) as (_ & _ & _ & Hsrc & _). exact Hsrc.
  - destruct (inflight (browser st) !! i) as [[f|t]|]; try exact Hst.
    destruct o; exact Hst.
  - destruct (inflight (browser st) !! i) as [[f|t]|]; try exact Hst.
    destruct o; exact Hst.
  - destruct (timers (browser st) !! i) as [[f md]|]; [|exact Hst].
    exact (in_order_create _ _ _ Hst).
  - destruct (sockets (browser st) !! ws) as [[u []]|]; exact Hst.
  - destruct (sockets (browser st) !! ws) as [[u []]|]; try exact Hst.
    destruct data; try exact Hst.
    unfold onmessage, onAnalysisComplete. cbn.
    destruct (websocket (session st)); exact Hst.
  - destruct (sockets (browser st) !! ws) as [[u []]|]; exact Hst.
  - exact Hst.
Qed.

Lemma run_urls_in_order (events : list Event) (st : State) :
  urls_in_order st -> urls_in_order (run events st).
Proof.
  revert st. induction events as [|e events IH]; intros st Hst; [exact Hst|].
  cbn. apply IH. apply step_urls_in_order. exact Hst.
Qed.

Lemma reachable_urls_in_order (st : State) : reachable st -> urls_in_order st.
Proof.
  intros [events ->]. apply run_urls_in_order.
  split; [apply NoDup_nil; exact I|]. split; [|left; reflexivity].
  intros u Hu. apply elem_of_nil in Hu. contradiction.
Qed.

Lemma step_task_id (st : State) (e : Event) :
  currentTaskId (session (step st e)) = currentTaskId (session st)
  \/ (exists i result,
        e = UploadSettled i (Ok result)
        /\ currentTaskId (session (step st e)) = Some (task_id result))
  \/ (e = ResetClicked /\ currentTaskId (session (step st e)) = None).
Proof.
  destruct e as [file| | |i o|i o|i|ws|ws data|ws|ws]; cbn [step].
  - left. unfold handleFileSelect. rewrite validateFile_rejection.
    destruct (rejection file); [reflexivity|]. destruct file; reflexivity.
  - left. destruct (startAnalysis_cases st) as [[message ->]|(t & _ & _ & ->)]; reflexivity.
  - right. right. split; [reflexivity|].
    destruct (resetUpload_idle st) as (_ & Htask & _). exact Htask.
  - destruct (inflight (browser st) !! i) as [[f|t]|]; try (left; reflexivity).
    destruct o as [message|detail|result|ok message]; try (left; reflexivity).
    right. left. exists i, result. split; reflexivity.
  - left. destruct (inflight (browser st) !! i) as [[f|t]|]; try reflexivity.
    destruct o; reflexivity.
  - left. destruct (timers (browser st) !! i) as [[f md]|]; reflexivity.
  - left. destruct (sockets (browser st) !! ws) as [[u []]|]; reflexivity.
  - left. destruct (sockets (browser st) !! ws) as [[u []]|]; try reflexivity.
    destruct data; try reflexivity.
    unfold onmessage, onAnalysisComplete. cbn.
    destruct (websocket (session st)); reflexivity.
  - left. destruct (sockets (browser st) !! ws) as [[u []]|]; reflexivity.
  - left. reflexivity.
Qed.

Lemma step_socket (st : State) (e : Event) (i : nat) (s : Socket) :
  sockets (browser st) !! i = Some s ->
  sockets (browser (step st e)) !! i = Some s
  \/ e = ResetClicked
  \/ (exists ws result, e = SocketMessage ws (Complete result))
  \/ e = SocketOpened i
  \/ e = SocketClosed i.
Proof.
  intros Hs. destruct e as [file| | |j o|j o|j|ws|ws data|ws|ws]; cbn [step].
  - left. unfold handleFileSelect. rewrite validateFile_rejection.
    destruct (rejection file); [exact Hs|]. destruct file; exact Hs.
  - left. destruct (startAnalysis_cases st) as [[message ->]|(t & _ & _ & ->)]; [exact Hs|].
    cbn. apply lookup_app_l_Some. exact Hs.
  - right. left. reflexivity.
  - left. destruct (inflight (browser st) !! j) as [[f|t]|]; try exact Hs.
    destruct o; exact Hs.
  - left. destruct (inflight (browser st) !! j) as [[f|t]|]; try exact Hs.
    destruct o; exact Hs.
  - left. destruct (timers (browser st) !! j) as [[f md]|]; exact Hs.
  - destruct (decide (ws = i)) as [->|Hne]; [right; right; right; left; reflexivity|].
    left. destruct (sockets (browser st) !! ws) as [[u []]|]; try exact Hs.
    cbn. rewrite list_lookup_alter_ne by exact Hne. exact Hs.
  - destruct data as [p message|result|message|];
      try (left; destruct (sockets (browser st) !! ws) as [[u []]|]; exact Hs).
    right. right. left. exists ws, result. reflexivity.
  - left. destruct (sockets (browser st) !! ws) as [[u []]|]; exact Hs.
  - destruct (decide (ws = i)) as [->|Hne]; [right; right; right; right; reflexivity|].
    left. cbn. rewrite list_lookup_alter_ne by exact Hne. exact Hs.
Qed.

(** C7 as the code has it. From any state [resetUpload] leads to the idle
    state: no file, no task id, no socket reference, the player's source
    emptied, the upload section back on show and the video section
    hidden. The socket the editor referred to is closed; every other
    socket is left as it is, open or not. The panel with the metadata and
    the analysis results rendered into it are not discarded: they stay in
    the hidden video section. No request in flight and no pending timer
    is withdrawn. [revokeObjectURL] is called once, with what the
    player's source reads, when that is not empty, and not at all
    otherwise. A second call in a row leaves the editor's fields, the
    page and the sockets as the first call left them, and revokes no
    object URL again; but the emptied source reads back as the URL of the
    document, so when the first call revoked something the second one
    calls [revokeObjectURL] once more, with that URL. In a state reached
    from the constructor by any sequence of events, no object URL has
    been revoked twice after the reset. *)
Theorem resetUpload_returns_to_idle (st : State) :
  let once := resetUpload st in
  let twice := resetUpload once in
  idle once
  /\ (forall ws s,
        websocket (session st) = Some ws ->
        sockets (browser st) !! ws = Some s ->
        exists s', sockets (browser once) !! ws = Some s' /\ closed s')
  /\ (forall i,
        websocket (session st) <> Some i ->
        sockets (browser once) !! i = sockets (browser st) !! i)
  /\ videoInfo_innerHTML (page once) = videoInfo_innerHTML (page st)
  /\ videoInfo_children (page once) = videoInfo_children (page st)
  /\ inflight (browser once) = inflight (browser st)
  /\ timers (browser once) = timers (browser st)
  /\ revoked (browser once)
     = (revoked (browser st)
          ++ (if String.eqb (videoPlayer_src_read (page st)) "" then []
              else [videoPlayer_src_read (page st)]))%list
  /\ session twice = session once
  /\ page twice = page once
  /\ sockets (browser twice) = sockets (browser once)
  /\ revoked (browser twice)
     = (revoked (browser once)
          ++ (if String.eqb (videoPlayer_src_read (page st)) "" then []
              else [documentURL]))%list
  /\ object_urls (revoked (browser twice)) = object_urls (revoked (browser once))
  /\ (reachable st -> NoDup (object_urls (revoked (browser twice)))).
Proof.
  cbn zeta.
  destruct (resetUpload_keeps st) as (Hhtml & Hchildren & _ & Hinflight & Htimers & _).
  destruct (resetUpload_again st) as (Hsession & Hpage & Hsockets & Hrevoked).
  assert (Hobject : object_urls (revoked (browser (resetUpload (resetUpload st))))
                    = object_urls (revoked (browser (resetUpload st)))).
  { rewrite Hrevoked, object_urls_app.
    destruct (Js.truthy (videoPlayer_src_read (page st))); cbn; apply app_nil_r. }
  split; [apply resetUpload_idle|].
  split.
  { intros ws s Hws Hs. exists (close_socket s).
    split; [apply resetUpload_closes; assumption | apply close_socket_closed]. }
  split; [intros i; apply resetUpload_others|].
  split; [exact Hhtml|]. split; [exact Hchildren|].
  split; [exact Hinflight|]. split; [exact Htimers|].
  split.
  { rewrite resetUpload_revoked. unfold Js.truthy.
    destruct (String.eqb (videoPlayer_src_read (page st)) ""); reflexivity. }
  split; [exact Hsession|]. split; [exact Hpage|]. split; [exact Hsockets|].
  split.
  { rewrite Hrevoked. unfold Js.truthy.
    destruct (String.eqb (videoPlayer_src_read (page st)) ""); reflexivity. }
  split; [exact Hobject|].
  intros Hreach. rewrite Hobject.
  destruct (step_urls_in_order st ResetClicked (reachable_urls_in_order st Hreach))
    as (Hnodup & _).
  exact Hnodup.
Qed.

(** C6 as the code has it. The editor has one field for the selected file
    and one for the task id. A selection that passes validation replaces
    the file and issues one upload request; it leaves the task id, the
    socket reference and every socket as they were. Whatever the event,
    the task id changes only in two ways: a successful upload response
    arrives, and the task id becomes the one of that response, or
    [resetUpload] clears it. A socket changes only when the network opens
    or closes it, when a [complete] message is handled, or in
    [resetUpload], which closes the socket the editor refers to. *)
Theorem valid_selection_keeps_task_and_channel (st : State) (f : File.t) :
  fst (validateFile (Some f) st) = true ->
  let st' := handleFileSelect (Some f) st in
  currentFile (session st') = Some f
  /\ currentTaskId (session st') = currentTaskId (session st)
  /\ websocket (session st') = websocket (session st)
  /\ sockets (browser st') = sockets (browser st)
  /\ requests (browser st') = (requests (browser st) ++ [PostUpload f])%list
  /\ (forall result,
        currentTaskId (session (uploadFileToServer_resume f (Ok result) st'))
        = Some (task_id result))
  /\ currentTaskId (session (resetUpload st')) = None
  /\ (forall ws s,
        websocket (session st) = Some ws ->
        sockets (browser st) !! ws = Some s ->
        sockets (browser (resetUpload st)) !! ws = Some (close_socket s))
  /\ (forall e,
        currentTaskId (session (step st e)) = currentTaskId (session st)
        \/ (exists i result,
              e = UploadSettled i (Ok result)
              /\ currentTaskId (session (step st e)) = Some (task_id result))
        \/ (e = ResetClicked /\ currentTaskId (session (step st e)) = None))
  /\ (forall e i s,
        sockets (browser st) !! i = Some s ->
        sockets (browser (step st e)) !! i = Some s
        \/ e = ResetClicked
        \/ (exists ws result, e = SocketMessage ws (Complete result))
        \/ e = SocketOpened i
        \/ e = SocketClosed i).
Proof.
  intros Hvalid. cbn zeta.
  assert (Hv : validateFile (Some f) st = (true, st)).
  { revert Hvalid. rewrite validateFile_rejection.
    destruct (rejection (Some f)); [discriminate | reflexivity]. }
  unfold handleFileSelect. rewrite Hv. cbn [negb].
  split_all; try reflexivity.
  - intros ws s. apply resetUpload_closes.
  - apply step_task_id.
  - intros e. apply step_socket.
Qed.

End Reset.

(** Counterexample to C6: while the analysis of the first upload is
    running on an open channel, a second file is selected and accepted;
    the task id of the first upload stays current and its channel stays
    open. When the second upload is accepted its task id becomes current,
    and the channel of the first task is still open and still the one the
    editor refers to. A second selection made right after the first upload
    was accepted keeps the first task id as well, even once the second
    upload has been refused. *)
Lemma new_selection_invalidates_nothing :
  let st' := step analysing (FileSelected (Some second_clip)) in
  let st'' := step st' (UploadSettled 0 (Ok second_result)) in
  let early := run [FileSelected (Some clip); UploadSettled 0 (Ok sample_result);
                    FileSelected (Some second_clip); UploadSettled 0 (NotOk None)]
                   initial in
  reachable analysing
  /\ currentTaskId (session analysing) = Some "abc123"
  /\ fst (validateFile (Some second_clip) analysing) = true
  /\ currentFile (session st') = Some second_clip
  /\ requests (browser st')
     = [PostUpload clip; PostAnalyze "abc123"; PostUpload second_clip]
  /\ currentTaskId (session st') = Some "abc123"
  /\ websocket (session st') = Some 0%nat
  /\ sockets (browser st')
     = [{| url := "ws://localhost:8000/ws/abc123"; readyState := OPEN |}]
  /\ currentTaskId (session st'') = Some "def456"
  /\ websocket (session st'') = Some 0%nat
  /\ sockets (browser st'')
     = [{| url := "ws://localhost:8000/ws/abc123"; readyState := OPEN |}]
  /\ currentFile (session early) = Some second_clip
  /\ currentTaskId (session early) = Some "abc123".
Proof.
  cbn zeta. split; [eexists; reflexivity|]. by_evaluation.
Qed.

(** Witness of C6 as amended: the same second selection. *)
Lemma valid_selection_keeps_task_and_channel_witness :
  fst (validateFile (Some second_clip) analysing) = true
  /\ currentTaskId (session (handleFileSelect (Some second_clip) analysing))
     = Some "abc123"
  /\ websocket (session (handleFileSelect (Some second_clip) analysing)) = Some 0%nat.
Proof.
  assert (Hvalid : fst (validateFile (Some second_clip) analysing) = true)
    by (vm_compute; reflexivity).
  destruct (valid_selection_keeps_task_and_channel analysing second_clip Hvalid)
    as (_ & Htask & Hws & _).
  split; [exact Hvalid|]. split.
  - rewrite Htask. vm_compute. reflexivity.
  - rewrite Hws. vm_compute. reflexivity.
Defined.

(** Counterexample to C7. After two clicks on the start button the
    editor refers to the second socket only: a reset leaves the first one
    open, and a progress message on it still reaches the page. A reset
    after the analysis has completed leaves the rendered result in the
    panel. A second reset in a row calls [revokeObjectURL] again, so its
    outcome is not the outcome of the first. *)
Lemma resetUpload_leaves_channel_and_summary :
  let once := resetUpload started_twice in
  let completed := step analysing (SocketMessage 0 (Complete sample_summary)) in
  reachable started_twice
  /\ readyState <$> sockets (browser started_twice) !! 0%nat = Some OPEN
  /\ readyState <$> sockets (browser once) !! 0%nat = Some OPEN
  /\ readyState <$> sockets (browser once) !! 1%nat = Some CLOSING
  /\ progressText_textContent (page (step once (SocketMessage 0 (Progress 50 "half way"))))
     = "half way"
  /\ videoInfo_children (page completed) = [sample_summary]
  /\ videoInfo_children (page (resetUpload completed)) = [sample_summary]
  /\ revoked (browser (resetUpload analysing)) = ["blob:0"]
  /\ revoked (browser (resetUpload (resetUpload analysing))) = ["blob:0"; documentURL]
  /\ resetUpload (resetUpload analysing) <> resetUpload analysing.
Proof.
  cbn zeta. split; [eexists; reflexivity|].
  split_all; try (vm_compute; reflexivity).
  intros Heq. apply (f_equal (fun st => length (revoked (browser st)))) in Heq.
  vm_compute in Heq. discriminate Heq.
Qed.

(** Witness of C7 as amended: a reset during the analysis revokes the
    player's URL and closes the channel; a second reset revokes the URL
    of the document and no object URL. *)
Lemma resetUpload_returns_to_idle_witness :
  reachable analysing
  /\ revoked (browser (resetUpload analysing)) = ["blob:0"]
  /\ object_urls (revoked (browser (resetUpload (resetUpload analysing)))) = ["blob:0"]
  /\ NoDup (object_urls (revoked (browser (resetUpload (resetUpload analysing)))))
  /\ readyState <$> sockets (browser (resetUpload analysing)) !! 0%nat = Some CLOSING.
Proof.
  assert (Hreach : reachable analysing) by (eexists; reflexivity).
  destruct (resetUpload_returns_to_idle analysing)
    as (_ & _ & _ & _ & _ & _ & _ & Hrev & _ & _ & _ & _ & Hobject & Hnodup).
  split; [exact Hreach|].
  split; [rewrite Hrev; vm_compute; reflexivity|].
  split; [rewrite Hobject, Hrev; vm_compute; reflexivity|].
  split; [exact (Hnodup Hreach)|].
  vm_compute. reflexivity.
Defined.

(** ** Display of the upload metadata *)

Section Formatting.

Lemma floor_div (a b : Z) : Js.floor (inject_Z a / inject_Z b) = (a / b)%Z.
Proof. unfold Js.floor. symmetry. apply Zdiv_Qdiv. Qed.

Lemma rem_whole (s m : Z) :
  (0 <= s)%Z -> (0 < m)%Z ->
  (Js.rem (inject_Z s) (inject_Z m) == inject_Z (s mod m))%Q.
Proof.
  intros Hs Hm. unfold Js.rem, Js.trunc.
  assert (Hq : (0 <= inject_Z s / inject_Z m)%Q).
  { apply Qle_shift_div_l.
    - change 0%Q with (inject_Z 0). rewrite <- Zlt_Qlt. exact Hm.
    - rewrite Qmult_0_l. change 0%Q with (inject_Z 0). rewrite <- Zle_Qle. exact Hs. }
  apply Qle_bool_iff in Hq. rewrite Hq.
  rewrite <- Zdiv_Qdiv.
  rewrite (Z.mod_eq s m) by lia.
  rewrite <- Z.add_opp_r, inject_Z_plus, inject_Z_opp, inject_Z_mult. reflexivity.
Qed.

Lemma formatDuration_whole (s : Z) :
  (0 <= s)%Z ->
  formatDuration (Js.Num (inject_Z s))
  = if (s / 3600 >? 0)%Z
    then Js.toString (s / 3600) +:+ ":" +:+ Js.padStart2 (Js.toString (s mod 3600 / 60))
           +:+ ":" +:+ Js.padStart2 (Js.toString (s mod 60))
    else Js.toString (s mod 3600 / 60) +:+ ":" +:+ Js.padStart2 (Js.toString (s mod 60)).
Proof.
  intros Hs. unfold formatDuration.
  change 3600%Q with (inject_Z 3600). change 60%Q with (inject_Z 60).
  rewrite floor_div.
  assert (Hmin : Js.floor (Js.rem (inject_Z s) (inject_Z 3600) / inject_Z 60)
                 = (s mod 3600 / 60)%Z).
  { rewrite <- floor_div. unfold Js.floor. apply Qfloor_comp.
    rewrite (rem_whole s 3600) by lia. reflexivity. }
  assert (Hsec : Js.floor (Js.rem (inject_Z s) (inject_Z 60)) = (s mod 60)%Z).
  { unfold Js.floor. rewrite <- (Qfloor_Z (s mod 60)). apply Qfloor_comp.
    apply rem_whole; lia. }
  rewrite Hmin, Hsec. reflexivity.
Qed.

Lemma formatDuration_under_an_hour (s : Z) :
  (0 <= s < 3600)%Z ->
  formatDuration (Js.Num (inject_Z s))
  = Js.toString (s / 60) +:+ ":" +:+ Js.padStart2 (Js.toString (s mod 60)).
Proof.
  intros Hs. rewrite formatDuration_whole by lia.
  rewrite (Z.div_small s 3600), (Z.mod_small s 3600) by lia. reflexivity.
Qed.

Lemma log_1024 (bytes i : Z) :
  (0 <= i)%Z -> (1024 ^ i <= bytes < 1024 ^ (i + 1))%Z ->
  (Z.log2 bytes / Z.log2 1024)%Z = i.
Proof.
  intros Hi [Hlo Hhi].
  assert (Hpos : (0 < bytes)%Z) by (pose proof (Z.pow_pos_nonneg 1024 i); lia).
  change (Z.log2 1024) with 10%Z.
  change 1024%Z with (2 ^ 10)%Z in Hlo, Hhi.
  rewrite <- Z.pow_mul_r in Hlo, Hhi by lia.
  apply (proj1 (Z.log2_le_pow2 _ _ Hpos)) in Hlo.
  apply (proj1 (Z.log2_lt_pow2 _ _ Hpos)) in Hhi.
  symmetry. apply (Z.div_unique _ _ _ (Z.log2 bytes - 10 * i)); lia.
Qed.

Lemma formatFileSize_scaled (bytes i : Z) :
  (0 <= i)%Z -> (1024 ^ i <= bytes < 1024 ^ (i + 1))%Z ->
  formatFileSize bytes
  = Js.hundredths_toString (Js.hundredths (inject_Z bytes / inject_Z (1024 ^ i)))
      +:+ " " +:+ nth (Z.to_nat i) ["Bytes"; "KB"; "MB"; "GB"] "undefined".
Proof.
  intros Hi Hb.
  assert (Hpos : (0 < bytes)%Z) by (pose proof (Z.pow_pos_nonneg 1024 i); lia).
  unfold formatFileSize.
  destruct (Z.eqb_spec bytes 0); [lia|].
  destruct (Z.ltb_spec bytes 0); [lia|].
  cbn zeta. rewrite (log_1024 bytes i Hi Hb). reflexivity.
Qed.

(** C8. A duration of 125 seconds is shown as "2:05" and a size of
    10485760 bytes as "10 MB"; these are the values [showVideoInfo] puts in
    the panel for the metadata of the example. In general a whole number
    of seconds under an hour is shown as the minutes, a colon and the
    seconds padded to two digits, and a size of at least [1024 ^ i] and
    less than [1024 ^ (i + 1)] bytes, for [i] from 0 to 3, is shown
    divided by [1024 ^ i], rounded to hundredths, with the [i]-th unit. *)
Theorem format_example_metadata :
  formatDuration (Js.Num 125) = "2:05"
  /\ formatFileSize 10485760 = "10 MB"
  /\ (forall st,
        videoInfo_innerHTML (page (showVideoInfo sample_result st))
        = Some {| panel_filename := "clip.MP4";
                  panel_duration := "2:05";
                  panel_resolution := (1920%Z, 1080%Z);
                  panel_frame_count := 3000;
                  panel_fps := 24;
                  panel_file_size := "10 MB" |})
  /\ (forall s,
        (0 <= s < 3600)%Z ->
        formatDuration (Js.Num (inject_Z s))
        = Js.toString (s / 60) +:+ ":" +:+ Js.padStart2 (Js.toString (s mod 60)))
  /\ (forall bytes i,
        (0 <= i <= 3)%Z -> (1024 ^ i <= bytes < 1024 ^ (i + 1))%Z ->
        formatFileSize bytes
        = Js.hundredths_toString (Js.hundredths (inject_Z bytes / inject_Z (1024 ^ i)))
            +:+ " " +:+ nth (Z.to_nat i) ["Bytes"; "KB"; "MB"; "GB"] "undefined").
Proof.
  split; [vm_compute; reflexivity|].
  split; [vm_compute; reflexivity|].
  split; [intros st; vm_compute; reflexivity|].
  split; [exact formatDuration_under_an_hour|].
  intros bytes i Hi Hb. apply formatFileSize_scaled; [lia | exact Hb].
Qed.

End Formatting.

(** Witness of C8: 125 seconds are under an hour, and 10485760 bytes lie
    between [1024 ^ 2] and [1024 ^ 3]. *)
Lemma format_example_metadata_witness :
  formatDuration (Js.Num (inject_Z 125)) = "2:05"
  /\ formatFileSize 10485760 = "10 MB".
Proof.
  destruct format_example_metadata as (_ & _ & _ & Hduration & Hsize).
  split.
  - rewrite (Hduration 125%Z) by lia. vm_compute. reflexivity.
  - rewrite (Hsize 10485760%Z 2%Z) by lia. vm_compute. reflexivity.
Defined.

(** * Further properties of the code *)

(** ** Starting the analysis *)

Section StartAnalysis.

Lemma startAnalysis_with_task (t : string) (st : State) :
  currentTaskId (session st) = Some t ->
  t <> "" ->
  has_fragment t = false ->
  sockets (browser (startAnalysis st)) = (sockets (browser st) ++ [socket_for t])%list
  /\ websocket (session (startAnalysis st)) = Some (length (sockets (browser st)))
  /\ requests (browser (startAnalysis st))
     = (requests (browser st) ++ [PostAnalyze t])%list
  /\ inflight (browser (startAnalysis st))
     = (inflight (browser st) ++ [PostAnalyze t])%list
  /\ currentTaskId (session (startAnalysis st)) = Some t
  /\ page (startAnalysis st) = page st.
Proof.
  intros Ht Hne Hfragment. unfold startAnalysis, connectWebSocket. rewrite Ht.
  assert (Htruthy : Js.truthy t = true).
  { unfold Js.truthy. destruct (String.eqb_spec t ""); [contradiction | reflexivity]. }
  rewrite Htruthy.
  change (has_fragment ("ws://localhost:8000/ws/" +:+ default "null" (Some t)))
    with (has_fragment t).
  rewrite Hfragment. unfold socket_for.
  split_all; try reflexivity. exact Ht.
Qed.

Lemma startAnalysis_with_fragment (t : string) (st : State) :
  currentTaskId (session st) = Some t ->
  has_fragment t = true ->
  startAnalysis st = showError (msg_fragment ("ws://localhost:8000/ws/" +:+ t)) st.
Proof.
  intros Ht Hfragment. unfold startAnalysis, connectWebSocket. rewrite Ht.
  assert (Htruthy : Js.truthy t = true).
  { destruct t; [discriminate Hfragment | reflexivity]. }
  rewrite Htruthy.
  change (has_fragment ("ws://localhost:8000/ws/" +:+ default "null" (Some t)))
    with (has_fragment t).
  rewrite Hfragment. reflexivity.
Qed.

(** X1. Without a task id, or with the empty string as task id,
    [startAnalysis] shows the message that there is nothing to analyse and
    stops there: no socket is created, no request is issued, the socket
    reference and the progress bar are left alone. *)
Theorem startAnalysis_without_task (st : State) :
  no_task st ->
  startAnalysis st = showError msg_no_task st
  /\ sockets (browser (startAnalysis st)) = sockets (browser st)
  /\ requests (browser (startAnalysis st)) = requests (browser st)
  /\ websocket (session (startAnalysis st)) = websocket (session st)
  /\ errorMessage_textContent (page (startAnalysis st)) = msg_no_task
  /\ errorMessage_display (page (startAnalysis st)) = "block".
Proof.
  intros [Hnone|Hempty]; unfold startAnalysis.
  - rewrite Hnone. split_all; reflexivity.
  - rewrite Hempty. split_all; reflexivity.
Qed.

(** X2. Every call of [startAnalysis] with a task id from which a socket
    can be made (one without [#]) opens one more socket for that task and
    issues one more analyze request, without closing the socket it
    referred to before: after two calls there are two new sockets, both
    connecting, two requests, and the editor refers to the second socket
    only. *)
Theorem startAnalysis_twice_opens_two_sockets (t : string) (st : State) :
  currentTaskId (session st) = Some t ->
  t <> "" ->
  has_fragment t = false ->
  let st2 := startAnalysis (startAnalysis st) in
  sockets (browser st2) = (sockets (browser st) ++ [socket_for t; socket_for t])%list
  /\ websocket (session st2) = Some (S (length (sockets (browser st))))
  /\ requests (browser st2)
     = (requests (browser st) ++ [PostAnalyze t; PostAnalyze t])%list
  /\ (forall i s, sockets (browser st) !! i = Some s -> sockets (browser st2) !! i = Some s).
Proof.
  intros Ht Hne Hfragment. cbn zeta.
  destruct (startAnalysis_with_task t st Ht Hne Hfragment) as (Hs1 & _ & Hr1 & _ & Ht1 & _).
  destruct (startAnalysis_with_task t (startAnalysis st) Ht1 Hne Hfragment)
    as (Hs2 & Hw2 & Hr2 & _).
  rewrite Hs2, Hw2, Hr2, Hs1, Hr1, <- !app_assoc, length_app. cbn.
  split_all; try reflexivity.
  - f_equal. lia.
  - intros i s Hi. apply lookup_app_l_Some. exact Hi.
Qed.

Lemma delete_at_end {A : Type} (l : list A) (x : A) : delete (length l) (l ++ [x])%list = l.
Proof. induction l as [|y l IH]; cbn; [reflexivity | f_equal; exact IH]. Qed.

(** X3. When the socket cannot be made, because the task id contains
    [#], [startAnalysis] shows the message of the error and stops before
    the request: no socket, no request, the socket reference as it was.
    Otherwise, when the analyze request fails, the message shown is the
    [detail] of the response, the fixed message when there is none or it
    is empty, the message of the parse error when the body is not JSON,
    or the message of the rejected [fetch]. The socket opened for the
    analysis is neither closed nor forgotten, the progress bar is not
    touched, and no request is issued again. *)
Theorem analysis_start_failure_keeps_socket (t : string) (st : State) :
  currentTaskId (session st) = Some t ->
  t <> "" ->
  (has_fragment t = true ->
   (exists message, startAnalysis st = showError message st)
   /\ sockets (browser (startAnalysis st)) = sockets (browser st)
   /\ websocket (session (startAnalysis st)) = websocket (session st)
   /\ requests (browser (startAnalysis st)) = requests (browser st)
   /\ errorMessage_display (page (startAnalysis st)) = "block")
  /\ (has_fragment t = false ->
      forall o message,
        ((o = NotOk None \/ o = NotOk (Some "")) /\ message = msg_analyze_failed
         \/ (exists d, d <> "" /\ o = NotOk (Some d) /\ message = d)
         \/ (exists ok, o = BadBody ok message)
         \/ o = NetworkError message) ->
        let started := startAnalysis st in
        let failed := step started (AnalyzeSettled (length (inflight (browser st))) o) in
        errorMessage_textContent (page failed) = message
        /\ errorMessage_display (page failed) = "block"
        /\ uploadProgress_display (page failed) = uploadProgress_display (page st)
        /\ sockets (browser failed) = (sockets (browser st) ++ [socket_for t])%list
        /\ websocket (session failed) = Some (length (sockets (browser st)))
        /\ requests (browser failed) = requests (browser started)
        /\ inflight (browser failed) = inflight (browser st)).
Proof.
  intros Ht Hne. split.
  { intros Hfragment. rewrite (startAnalysis_with_fragment t st Ht Hfragment).
    split; [eexists; reflexivity|]. split_all; reflexivity. }
  intros Hfragment o message Ho. cbn zeta.
  destruct (startAnalysis_with_task t st Ht Hne Hfragment) as (Hs & Hw & Hr & Hi & _ & Hp).
  cbn [step]. rewrite Hi, list_lookup_middle by reflexivity.
  rewrite delete_at_end.
  assert (Hresume : startAnalysis_resume o
            (set_network (requests (browser (startAnalysis st))) (inflight (browser st))
               (startAnalysis st))
          = showError message
              (set_network (requests (browser (startAnalysis st))) (inflight (browser st))
                 (startAnalysis st))).
  { destruct Ho as [[[-> | ->] ->]|[(d & Hd & -> & ->)|[[ok ->]| ->]]];
      cbn [startAnalysis_resume]; try reflexivity.
    unfold Js.or_else, Js.truthy.
    destruct (String.eqb_spec d ""); [contradiction | reflexivity]. }
  rewrite Hresume. cbn. rewrite Hs, Hw, Hp. split_all; reflexivity.
Qed.

End StartAnalysis.

(** Witness of X1: the fresh page has no task. *)
Lemma startAnalysis_without_task_witness :
  no_task initial
  /\ errorMessage_textContent (page (startAnalysis initial)) = msg_no_task
  /\ sockets (browser (startAnalysis initial)) = [].
Proof.
  assert (Hno : no_task initial) by (left; reflexivity).
  destruct (startAnalysis_without_task initial Hno) as (_ & Hs & _ & _ & Hm & _).
  split; [exact Hno|]. split; [exact Hm | exact Hs].
Defined.

(** Witness of X2: a second click during the analysis. *)
Lemma startAnalysis_twice_opens_two_sockets_witness :
  List.map readyState (sockets (browser (startAnalysis (startAnalysis analysing))))
  = [OPEN; CONNECTING; CONNECTING]
  /\ websocket (session (startAnalysis (startAnalysis analysing))) = Some 2%nat.
Proof.
  assert (Ht : currentTaskId (session analysing) = Some "abc123") by (vm_compute; reflexivity).
  assert (Hne : "abc123" <> "") by discriminate.
  assert (Hfragment : has_fragment "abc123" = false) by reflexivity.
  destruct (startAnalysis_twice_opens_two_sockets "abc123" analysing Ht Hne Hfragment)
    as (Hs & Hw & _).
  split; [rewrite Hs | rewrite Hw]; vm_compute; reflexivity.
Defined.

(** Witness of X3: the server refuses to start the analysis of an
    accepted upload; and an upload whose task id is [a#b] cannot be
    analysed at all. *)
Lemma analysis_start_failure_keeps_socket_witness :
  let uploaded := run [FileSelected (Some clip); UploadSettled 0 (Ok sample_result)] initial in
  let failed := step (startAnalysis uploaded) (AnalyzeSettled 0 (NotOk (Some "busy"))) in
  let odd := run [FileSelected (Some clip); UploadSettled 0 (Ok odd_result)] initial in
  errorMessage_textContent (page failed) = "busy"
  /\ sockets (browser failed) = [socket_for "abc123"]
  /\ websocket (session failed) = Some 0%nat
  /\ sockets (browser (startAnalysis odd)) = []
  /\ requests (browser (startAnalysis odd)) = [PostUpload clip].
Proof.
  cbn zeta.
  assert (Ht : currentTaskId (session (run [FileSelected (Some clip);
                                             UploadSettled 0 (Ok sample_result)] initial))
               = Some "abc123") by (vm_compute; reflexivity).
  assert (Hne : "abc123" <> "") by discriminate.
  destruct (analysis_start_failure_keeps_socket "abc123" _ Ht Hne) as [_ Hfailed].
  destruct (Hfailed eq_refl (NotOk (Some "busy")) "busy") as (Hm & _ & _ & Hs & Hw & _).
  { right. left. exists "busy". split; [discriminate | split; reflexivity]. }
  assert (Hodd : currentTaskId (session (run [FileSelected (Some clip);
                                               UploadSettled 0 (Ok odd_result)] initial))
                 = Some "a#b") by (vm_compute; reflexivity).
  assert (Hne' : "a#b" <> "") by discriminate.
  destruct (analysis_start_failure_keeps_socket "a#b" _ Hodd Hne') as [Hthrown _].
  destruct (Hthrown eq_refl) as (_ & Hs' & _ & Hr' & _).
  split; [exact Hm|]. split; [exact Hs|]. split; [exact Hw|].
  split; [rewrite Hs' | rewrite Hr']; vm_compute; reflexivity.
Defined.

(** ** What the editor never does to sockets and requests *)

Section Runs.

Lemma handleFileSelect_untouched (file : option File.t) (st : State) :
  sockets (browser (handleFileSelect file st)) = sockets (browser st)
  /\ websocket (session (handleFileSelect file st)) = websocket (session st)
  /\ timers (browser (handleFileSelect file st)) = timers (browser st)
  /\ videoInfo_children (page (handleFileSelect file st)) = videoInfo_children (page st).
Proof.
  unfold handleFileSelect. rewrite validateFile_rejection.
  destruct (rejection file); [split_all; reflexivity|].
  destruct file; split_all; reflexivity.
Qed.

Lemma step_keeps_unreferenced_socket (st : State) (e : Event) (i : nat) (s : Socket) :
  sockets (browser st) !! i = Some s ->
  websocket (session st) <> Some i ->
  network_event_of i e = false ->
  sockets (browser (step st e)) !! i = Some s
  /\ websocket (session (step st e)) <> Some i.
Proof.
  intros Hs Href Hnet.
  assert (Hlen : (i < length (sockets (browser st)))%nat) by (eapply lookup_lt_Some; exact Hs).
  destruct e as [file| | |j o|j o|j|ws|ws data|ws|ws]; cbn [step].
  - destruct (handleFileSelect_untouched file st) as (-> & -> & _). split; assumption.
  - destruct (startAnalysis_cases st) as [[message ->]|(t & _ & _ & ->)]; [split; assumption|].
    cbn. split.
    + apply lookup_app_l_Some. exact Hs.
    + intros [= Heq]. lia.
  - rewrite resetUpload_sockets.
    destruct (resetUpload_idle st) as (_ & _ & -> & _).
    split; [|discriminate].
    destruct (websocket (session st)) as [ws|]; [|exact Hs].
    rewrite list_lookup_alter_ne; [exact Hs | congruence].
  - destruct (inflight (browser st) !! j) as [[f|t]|]; try (split; assumption).
    destruct o; split; assumption.
  - destruct (inflight (browser st) !! j) as [[f|t]|]; try (split; assumption).
    destruct o; split; assumption.
  - destruct (timers (browser st) !! j) as [[f md]|]; split; assumption.
  - cbn in Hnet. apply Nat.eqb_neq in Hnet.
    destruct (sockets (browser st) !! ws) as [[u []]|]; try (split; assumption).
    cbn. split; [|assumption]. rewrite list_lookup_alter_ne; assumption.
  - destruct (sockets (browser st) !! ws) as [[u []]|]; try (split; assumption).
    destruct data; try (split; assumption).
    unfold onmessage, onAnalysisComplete. cbn.
    destruct (websocket (session st)) as [w|] eqn:Hw; cbn; rewrite ?Hw; [|split; assumption].
    split; [|assumption]. rewrite list_lookup_alter_ne; [exact Hs | congruence].
  - destruct (sockets (browser st) !! ws) as [[u []]|]; split; assumption.
  - cbn in Hnet. apply Nat.eqb_neq in Hnet.
    cbn. split; [|assumption]. rewrite list_lookup_alter_ne; assumption.
Qed.

(** X4. The editor closes no socket but the one it refers to. A socket
    that it does not refer to is never referred to again, and keeps its
    ready state through every event handled by the editor; only the
    network (the socket opening or closing by itself) changes it. *)
Theorem unreferenced_socket_is_never_closed
    (events : list Event) (st : State) (i : nat) (s : Socket) :
  sockets (browser st) !! i = Some s ->
  websocket (session st) <> Some i ->
  forallb (fun e => negb (network_event_of i e)) events = true ->
  sockets (browser (run events st)) !! i = Some s
  /\ websocket (session (run events st)) <> Some i.
Proof.
  revert st. induction events as [|e events IH]; intros st Hs Href Hquiet.
  - split; assumption.
  - cbn in Hquiet. apply andb_prop in Hquiet as [He Hrest].
    apply negb_true_iff in He.
    destruct (step_keeps_unreferenced_socket st e i s Hs Href He) as [Hs' Href'].
    cbn. apply IH; assumption.
Qed.

Lemma step_requests (st : State) (e : Event) :
  exists issued,
    requests (browser (step st e)) = (requests (browser st) ++ issued)%list
    /\ (length issued <= if user_request e then 1 else 0)%nat.
Proof.
  destruct e as [file| | |j o|j o|j|ws|ws data|ws|ws]; cbn [step user_request].
  - unfold handleFileSelect. rewrite validateFile_rejection.
    destruct (rejection file).
    + exists []. rewrite app_nil_r. split; [reflexivity | cbn; lia].
    + destruct file as [f|].
      * exists [PostUpload f]. split; [reflexivity | cbn; lia].
      * exists []. rewrite app_nil_r. split; [reflexivity | cbn; lia].
  - destruct (startAnalysis_cases st) as [[message ->]|(t & _ & _ & ->)].
    + exists []. rewrite app_nil_r. split; [reflexivity | cbn; lia].
    + exists [PostAnalyze t]. split; [reflexivity | cbn; lia].
  - exists []. rewrite app_nil_r. split; [|cbn; lia].
    destruct (resetUpload_keeps st) as (_ & _ & Hrequests & _). exact Hrequests.
  - exists []. rewrite app_nil_r. split; [|cbn; lia].
    destruct (inflight (browser st) !! j) as [[f|t]|]; try reflexivity.
    destruct o; reflexivity.
  - exists []. rewrite app_nil_r. split; [|cbn; lia].
    destruct (inflight (browser st) !! j) as [[f|t]|]; try reflexivity.
    destruct o; reflexivity.
  - exists []. rewrite app_nil_r. split; [|cbn; lia].
    destruct (timers (browser st) !! j) as [[f md]|]; reflexivity.
  - exists []. rewrite app_nil_r. split; [|cbn; lia].
    destruct (sockets (browser st) !! ws) as [[u []]|]; reflexivity.
  - exists []. rewrite app_nil_r. split; [|cbn; lia].
    destruct (sockets (browser st) !! ws) as [[u []]|]; try reflexivity.
    destruct data; try reflexivity.
    unfold onmessage, onAnalysisComplete. cbn.
    destruct (websocket (session st)); reflexivity.
  - exists []. rewrite app_nil_r. split; [|cbn; lia].
    destruct (sockets (browser st) !! ws) as [[u []]|]; reflexivity.
  - exists []. rewrite app_nil_r. split; [reflexivity | cbn; lia].
Qed.

Lemma run_requests (events : list Event) (st : State) :
  exists issued,
    requests (browser (run events st)) = (requests (browser st) ++ issued)%list
    /\ (length issued <= length (List.filter user_request events))%nat.
Proof.
  revert st. induction events as [|e events IH]; intros st.
  - exists []. rewrite app_nil_r. split; [reflexivity | cbn; lia].
  - destruct (step_requests st e) as (first & Hfirst & Hlen).
    destruct (IH (step st e)) as (more & Hmore & Hlen').
    exists (first ++ more)%list. cbn [run fold_left] in *.
    split.
    + unfold run in Hmore. rewrite Hmore, Hfirst, app_assoc. reflexivity.
    + rewrite length_app. cbn [List.filter].
      destruct (user_request e); cbn [length]; lia.
Qed.

Lemma dispatch_requests (w : Window) (e : DomEvent) :
  (exists issued,
      requests (browser (editor (dispatch w e)))
      = (requests (browser (editor w)) ++ issued)%list
      /\ (length issued <= if user_dom_request e then 1 else 0)%nat)
  /\ statusProbes (dispatch w e)
     = (statusProbes w + if probe_due e then 1 else 0)%nat.
Proof.
  destruct e as [files| | |files| |o|e]; cbn [dispatch user_dom_request probe_due].
  - split; [|cbn; lia]. cbn [set_editor editor].
    exact (step_requests (editor w) (FileSelected (head files))).
  - split; [|cbn; lia]. exists []. rewrite app_nil_r. split; [reflexivity | cbn; lia].
  - split; [|cbn; lia]. exists []. rewrite app_nil_r. split; [reflexivity | cbn; lia].
  - destruct files as [|first others].
    + split; [|cbn; lia]. exists []. rewrite app_nil_r. split; [reflexivity | cbn; lia].
    + split; [|cbn; lia]. cbn [set_editor set_dragover editor].
      exact (step_requests (editor w) (FileSelected (Some first))).
  - split; [|cbn; lia]. exists []. rewrite app_nil_r. split; [reflexivity | cbn; lia].
  - split.
    + exists []. rewrite app_nil_r. split; [|cbn; lia].
      destruct o as [message|detail|loaded|[] message]; reflexivity.
    + destruct o as [message|detail|loaded|[] message]; cbn; lia.
  - split; [|cbn; lia]. cbn [set_editor editor]. exact (step_requests (editor w) e).
Qed.

(** X5. On the page [fetch] is called from three places only. The editor
    calls it when a file is chosen or dropped and when the analysis is
    started, once each time: along any sequence of events the requests
    already issued stay in the log in their order, and no more requests
    are added than there are such user events. The status probe calls it
    once when the page is loaded and once at each tick of its interval.
    No response, no timer of the editor and no channel message makes the
    page send anything. *)
Theorem requests_only_on_user_events (events : list DomEvent) (w : Window) :
  let w' := fold_left dispatch events w in
  (exists issued,
      requests (browser (editor w')) = (requests (browser (editor w)) ++ issued)%list
      /\ (length issued <= length (List.filter user_dom_request events))%nat)
  /\ statusProbes w' = (statusProbes w + length (List.filter probe_due events))%nat
  /\ statusProbes loaded = 1%nat
  /\ requests (browser (editor loaded)) = [].
Proof.
  cbn zeta. split; [|split; [|split; reflexivity]].
  - revert w. induction events as [|e events IH]; intros w.
    + exists []. rewrite app_nil_r. split; [reflexivity | cbn; lia].
    + destruct (dispatch_requests w e) as [(first & Hfirst & Hlen) _].
      destruct (IH (dispatch w e)) as (more & Hmore & Hlen').
      exists (first ++ more)%list. cbn [fold_left]. split.
      * rewrite Hmore, Hfirst, app_assoc. reflexivity.
      * rewrite length_app. cbn [List.filter].
        destruct (user_dom_request e); cbn [length]; lia.
  - revert w. induction events as [|e events IH]; intros w; [cbn; lia|].
    destruct (dispatch_requests w e) as [_ Hprobes].
    cbn [fold_left List.filter]. rewrite IH, Hprobes.
    destruct (probe_due e); cbn [length]; lia.
Qed.

End Runs.

(** Witness of X4: after a second click on the start button the first
    socket is open and unreferenced; a [complete] message on it, a reset
    and a late message leave it open. *)
Lemma unreferenced_socket_is_never_closed_witness :
  let st := step analysing StartAnalysisClicked in
  let events := [SocketMessage 0 (Complete sample_summary); ResetClicked;
                 SocketMessage 0 (Error "late")] in
  websocket (session st) = Some 1%nat
  /\ sockets (browser (run events st)) !! 0%nat
     = Some {| url := "ws://localhost:8000/ws/abc123"; readyState := OPEN |}.
Proof.
  cbn zeta. split; [vm_compute; reflexivity|].
  apply (unreferenced_socket_is_never_closed
           [SocketMessage 0 (Complete sample_summary); ResetClicked;
            SocketMessage 0 (Error "late")]
           (step analysing StartAnalysisClicked) 0%nat).
  - vm_compute. reflexivity.
  - vm_compute. discriminate.
  - reflexivity.
Defined.

(** ** Timers and object URLs *)

Section Timers.

Lemma resetUpload_timers (st : State) :
  timers (browser (resetUpload st)) = timers (browser st)
  /\ objectURLs (browser (resetUpload st)) = objectURLs (browser st).
Proof.
  destruct (resetUpload_keeps st) as (_ & _ & _ & _ & Htimers & Hurls).
  split; assumption.
Qed.

(** X6. [resetUpload] does not cancel the timer that [uploadFileToServer]
    set after an accepted upload. When the timer fires after the reset,
    the video section is put on show again and the upload section hidden,
    and the player receives a new object URL, while no file and no task
    are selected: the page is no longer idle. *)
Theorem reset_keeps_pending_timer (st : State) (i : nat) (file : File.t) (md : Metadata) :
  timers (browser st) !! i = Some (file, md) ->
  let fired := step (resetUpload st) (TimerFired i) in
  timers (browser (resetUpload st)) !! i = Some (file, md)
  /\ videoSection_display (page fired) = "block"
  /\ uploadSection_display (page fired) = "none"
  /\ videoPlayer_src (page fired) = objectURL (objectURLs (browser st))
  /\ currentFile (session fired) = None
  /\ currentTaskId (session fired) = None
  /\ ~ idle fired.
Proof.
  intros Hi. cbn zeta.
  destruct (resetUpload_timers st) as [Ht Hu].
  destruct (resetUpload_idle st) as (Hf & Hk & _).
  remember (resetUpload st) as r eqn:Hr.
  cbn [step]. rewrite Ht, Hi. cbn. rewrite Hu.
  split_all; try reflexivity; try assumption.
  intros (_ & _ & _ & _ & _ & Hupload & _). cbn in Hupload. discriminate Hupload.
Qed.

Lemma step_abandoned (u : string) (st : State) (e : Event) :
  abandoned u st -> abandoned u (step st e).
Proof.
  intros ((n & Hn & Hu) & Hsrc & Hrev).
  assert (Hkeep : forall st',
             videoPlayer_src (page st') = videoPlayer_src (page st) ->
             objectURLs (browser st') = objectURLs (browser st) ->
             revoked (browser st') = revoked (browser st) ->
             abandoned u st').
  { intros st' H1 H2 H3. unfold abandoned. rewrite H1, H2, H3.
    split; [exists n; split; assumption|]. split; assumption. }
  destruct e as [file| | |j o|j o|j|ws|ws data|ws|ws]; cbn [step].
  - destruct (handleFileSelect_page_src file st) as (H1 & H2 & H3). apply Hkeep; assumption.
  - destruct (startAnalysis_cases st) as [[message ->]|(t & _ & _ & ->)];
      apply Hkeep; reflexivity.
  - unfold abandoned. rewrite resetUpload_revoked, read_cases.
    destruct (resetUpload_timers st) as [_ ->].
    destruct (resetUpload_idle st) as (_ & _ & _ & -> & _).
    split; [exists n; split; assumption|]. split.
    + subst u. discriminate.
    + intros Hin. apply elem_of_app in Hin as [Hin|Hin]; [contradiction|].
      destruct (Js.truthy (videoPlayer_src (page st))).
      * apply list_elem_of_singleton in Hin. congruence.
      * destruct (videoPlayer_src_present (page st)).
        -- apply list_elem_of_singleton in Hin. subst u.
           exact (objectURL_not_document n Hin).
        -- apply elem_of_nil in Hin. exact Hin.
  - destruct (inflight (browser st) !! j) as [[f|t]|]; try (apply Hkeep; reflexivity).
    destruct o; apply Hkeep; reflexivity.
  - destruct (inflight (browser st) !! j) as [[f|t]|]; try (apply Hkeep; reflexivity).
    destruct o; apply Hkeep; reflexivity.
  - destruct (timers (browser st) !! j) as [[f md]|]; [|apply Hkeep; reflexivity].
    unfold abandoned. cbn. split; [exists n; split; [lia | exact Hu]|]. split.
    + subst u. intros Heq. apply objectURL_inj in Heq. lia.
    + exact Hrev.
  - destruct (sockets (browser st) !! ws) as [[v []]|]; apply Hkeep; reflexivity.
  - destruct (sockets (browser st) !! ws) as [[v []]|]; try (apply Hkeep; reflexivity).
    destruct data; try (apply Hkeep; reflexivity).
    unfold onmessage, onAnalysisComplete. cbn.
    destruct (websocket (session st)); apply Hkeep; reflexivity.
  - destruct (sockets (browser st) !! ws) as [[v []]|]; apply Hkeep; reflexivity.
  - apply Hkeep; reflexivity.
Qed.

Lemma run_abandoned (u : string) (events : list Event) (st : State) :
  abandoned u st -> abandoned u (run events st).
Proof.
  revert st. induction events as [|e events IH]; intros st Hst; [exact Hst|].
  cbn. apply IH. apply step_abandoned. exact Hst.
Qed.

(** X7. [showVideoPlayer] overwrites the URL of the player without
    revoking it. When the timer of an accepted upload fires while the
    player still holds the object URL of an earlier one, that URL is lost:
    whatever happens afterwards, it is never revoked and never held
    again. *)
Theorem replaced_object_url_is_never_revoked
    (st : State) (i : nat) (file : File.t) (md : Metadata) (events : list Event) :
  reachable st ->
  videoPlayer_src (page st) <> "" ->
  timers (browser st) !! i = Some (file, md) ->
  let later := run events (step st (TimerFired i)) in
  (videoPlayer_src (page st) ∉ revoked (browser later))
  /\ videoPlayer_src (page later) <> videoPlayer_src (page st).
Proof.
  intros Hreach Hheld Hi. cbn zeta.
  destruct (reachable_urls_in_order st Hreach) as (_ & _ & [Hempty|[(n & Hn & Hu) Hfresh]]);
    [contradiction|].
  assert (Hab : abandoned (videoPlayer_src (page st)) (step st (TimerFired i))).
  { cbn [step]. rewrite Hi. unfold abandoned. cbn.
    split; [exists n; split; [lia | exact Hu]|]. split; [|exact Hfresh].
    rewrite Hu. intros Heq. apply objectURL_inj in Heq. lia. }
  destruct (run_abandoned _ events _ Hab) as (_ & Hsrc & Hrev).
  split; assumption.
Qed.

End Timers.

(** Witness of X6: reset within the second after the upload was accepted. *)
Lemma reset_keeps_pending_timer_witness :
  let st := run [FileSelected (Some clip); UploadSettled 0 (Ok sample_result)] initial in
  timers (browser st) !! 0%nat = Some (clip, sample_metadata)
  /\ videoSection_display (page (step (resetUpload st) (TimerFired 0))) = "block"
  /\ videoPlayer_src (page (step (resetUpload st) (TimerFired 0))) = "blob:0".
Proof.
  cbn zeta.
  assert (Hi : timers (browser (run [FileSelected (Some clip);
                                     UploadSettled 0 (Ok sample_result)] initial)) !! 0%nat
               = Some (clip, sample_metadata)) by (vm_compute; reflexivity).
  destruct (reset_keeps_pending_timer _ 0%nat clip sample_metadata Hi)
    as (_ & Hvideo & _ & Hsrc & _).
  split; [exact Hi|]. split; [exact Hvideo|].
  rewrite Hsrc. vm_compute. reflexivity.
Defined.

(** Witness of X7: a second upload is accepted before the first is reset;
    its timer replaces the URL of the first, and a reset afterwards
    revokes only the second URL. *)
Lemma replaced_object_url_is_never_revoked_witness :
  videoPlayer_src (page two_accepted_uploads) = "blob:0"
  /\ timers (browser two_accepted_uploads) !! 0%nat = Some (second_clip, sample_metadata)
  /\ ("blob:0" ∉ revoked (browser (run [ResetClicked]
                                      (step two_accepted_uploads (TimerFired 0)))))
  /\ revoked (browser (run [ResetClicked] (step two_accepted_uploads (TimerFired 0))))
     = ["blob:1"].
Proof.
  assert (Hsrc : videoPlayer_src (page two_accepted_uploads) = "blob:0")
    by (vm_compute; reflexivity).
  assert (Hi : timers (browser two_accepted_uploads) !! 0%nat
               = Some (second_clip, sample_metadata)) by (vm_compute; reflexivity).
  assert (Hreach : reachable two_accepted_uploads) by (eexists; reflexivity).
  assert (Hheld : videoPlayer_src (page two_accepted_uploads) <> "")
    by (rewrite Hsrc; discriminate).
  destruct (replaced_object_url_is_never_revoked two_accepted_uploads 0%nat
              second_clip sample_metadata [ResetClicked] Hreach Hheld Hi) as [Hnever _].
  rewrite Hsrc in Hnever.
  split; [exact Hsrc|]. split; [exact Hi|]. split; [exact Hnever|].
  vm_compute. reflexivity.
Defined.

(** ** The extension that [validateFile] checks *)

Section Extension.

Lemma lower_dot (c : ascii) : Ascii.eqb (Js.lower c) "." = Ascii.eqb c ".".
Proof. destruct c as [[] [] [] [] [] [] [] []]; reflexivity. Qed.

Lemma split_lower (s : string) :
  Js.split "." (Js.toLowerCase s) = List.map Js.toLowerCase (Js.split "." s).
Proof.
  unfold Js.toLowerCase. induction s as [|c s IH]; [reflexivity|].
  cbn [Js.map Js.split]. rewrite lower_dot, IH.
  destruct (Ascii.eqb c "."); [reflexivity|].
  destruct (Js.split "." s); reflexivity.
Qed.

Lemma pop_lower (l : list string) :
  Js.pop (List.map Js.toLowerCase l) = Js.toLowerCase (Js.pop l).
Proof.
  unfold Js.pop. induction l as [|x l IH]; [reflexivity|].
  destruct l as [|y l]; [reflexivity|]. exact IH.
Qed.

Lemma fileExtension_lower (f : File.t) :
  fileExtension f = Js.pop (Js.split "." (Js.toLowerCase (File.name f))).
Proof. unfold fileExtension. rewrite split_lower, pop_lower. reflexivity. Qed.

(** X8. Validation does not depend on the letter case of the file name:
    two files whose names differ only in the case of ASCII letters, with
    the same size and media type, get the same verdict and the same
    message. *)
Theorem validateFile_ignores_case_of_name (f g : File.t) (st : State) :
  Js.toLowerCase (File.name f) = Js.toLowerCase (File.name g) ->
  File.size f = File.size g ->
  File.type f = File.type g ->
  validateFile (Some f) st = validateFile (Some g) st.
Proof.
  intros Hname Hsize Htype. unfold validateFile.
  rewrite !fileExtension_lower, Hname, Hsize, Htype. reflexivity.
Qed.

Lemma split_dotless (s : string) : has_dot s = false -> Js.split "." s = [s].
Proof.
  induction s as [|c s IH]; [reflexivity|]. cbn [has_dot Js.split].
  intros H. apply orb_false_iff in H as [Hc Hs].
  rewrite Hc, (IH Hs). reflexivity.
Qed.

Lemma split_before_dot (base ext : string) :
  has_dot ext = false ->
  exists first others,
    Js.split "." (base +:+ "." +:+ ext) = (first :: others ++ [ext])%list.
Proof.
  intros Hext. induction base as [|c base (first & others & IH)].
  - exists "", [].
    change (Js.split "." ("" +:+ "." +:+ ext)) with ("" :: Js.split "." ext).
    rewrite (split_dotless ext Hext). reflexivity.
  - change (Js.split "." (String c base +:+ "." +:+ ext))
      with (if Ascii.eqb c "." then "" :: Js.split "." (base +:+ "." +:+ ext)
            else match Js.split "." (base +:+ "." +:+ ext) with
                 | seg :: rest => String c seg :: rest
                 | [] => [String c ""]
                 end).
    rewrite IH. destruct (Ascii.eqb c ".").
    + exists "", (first :: others). reflexivity.
    + exists (String c first), others. reflexivity.
Qed.

Lemma fileExtension_after_last_dot (f : File.t) (base ext : string) :
  File.name f = base +:+ "." +:+ ext ->
  has_dot ext = false ->
  fileExtension f = Js.toLowerCase ext.
Proof.
  intros Hname Hext. unfold fileExtension. rewrite Hname.
  destruct (split_before_dot base ext Hext) as (first & others & ->).
  unfold Js.pop. rewrite app_comm_cons, List.last_last. reflexivity.
Qed.

(** X9. For a file named [base.ext], where [ext] has no dot and is made
    of ASCII characters, the extension checked is [ext] in lower case,
    whatever [base] is: empty (a name that starts with its only dot) or
    itself with dots. With an admissible size and a video media type the
    file is accepted exactly when that extension is one of the supported
    formats. *)
Theorem validateFile_checks_text_after_last_dot
    (f : File.t) (base ext : string) (st : State) :
  File.name f = base +:+ "." +:+ ext ->
  has_dot ext = false ->
  is_ascii ext = true ->
  (File.size f <= maxFileSize)%Z ->
  Js.startsWith (File.type f) "video/" = true ->
  fileExtension f = Js.toLowerCase ext
  /\ (fst (validateFile (Some f) st) = true <-> Js.toLowerCase ext ∈ supportedFormats).
Proof.
  intros Hname Hext _ Hsize Htype.
  pose proof (fileExtension_after_last_dot f base ext Hname Hext) as Hfe.
  split; [exact Hfe|].
  unfold validateFile. rewrite Hfe, Htype, includes_elem_of.
  destruct (Z.gtb_spec (File.size f) maxFileSize) as [Hbig|_]; [lia|].
  destruct (bool_decide_reflect (Js.toLowerCase ext ∈ supportedFormats)) as [Hin|Hout]; cbn.
  - split; [intros _; exact Hin | reflexivity].
  - split; [discriminate | contradiction].
Qed.

End Extension.

(** Witness of X8: [clip.MP4] and [CLIP.mp4]. *)
Lemma validateFile_ignores_case_of_name_witness :
  validateFile (Some clip) initial = validateFile (Some (renamed "CLIP.mp4" clip)) initial.
Proof.
  apply validateFile_ignores_case_of_name; reflexivity.
Defined.

(** Witness of X9: [archive.tar.MKV] is checked as [mkv], and a file
    called [.mp4] as [mp4]. *)
Lemma validateFile_checks_text_after_last_dot_witness :
  fileExtension third_clip = "mkv"
  /\ fst (validateFile (Some third_clip) initial) = true
  /\ fst (validateFile (Some (renamed ".mp4" clip)) initial) = true.
Proof.
  destruct (validateFile_checks_text_after_last_dot third_clip "archive.tar" "MKV" initial)
    as [Hext Hiff]; try reflexivity; [vm_compute; discriminate|].
  destruct (validateFile_checks_text_after_last_dot (renamed ".mp4" clip) "" "mp4" initial)
    as [_ Hiff']; try reflexivity; [vm_compute; discriminate|].
  split; [exact Hext|]. split.
  - apply Hiff. unfold supportedFormats. do 3 right. left.
  - apply Hiff'. unfold supportedFormats. left.
Defined.

(** ** Durations and sizes in general *)

Section FormattingInGeneral.

Lemma Qfloor_div_whole (q : Q) (n : Z) :
  (0 < n)%Z -> Qfloor (q / inject_Z n) = (Qfloor q / n)%Z.
Proof.
  intros Hn. destruct q as [a b]. destruct n as [|p|p]; try lia.
  cbn. rewrite Z.mul_1_r, Pos2Z.inj_mul.
  symmetry. apply Z.div_div; lia.
Qed.

Lemma Qfloor_minus_whole (q : Q) (m : Z) :
  Qfloor (q - inject_Z m) = (Qfloor q - m)%Z.
Proof.
  destruct q as [a b]. cbn. rewrite Pos.mul_1_r, Z.mul_1_r.
  rewrite Z.div_add by lia. lia.
Qed.

Lemma rem_by_whole (q : Q) (n : Z) :
  (0 <= q)%Q -> (0 < n)%Z ->
  Js.rem q (inject_Z n) = (q - inject_Z (n * (Qfloor q / n)))%Q.
Proof.
  intros Hq Hn. unfold Js.rem, Js.trunc.
  assert (Hpos : (0 <= q / inject_Z n)%Q).
  { apply Qle_shift_div_l.
    - change 0%Q with (inject_Z 0). rewrite <- Zlt_Qlt. exact Hn.
    - rewrite Qmult_0_l. exact Hq. }
  apply Qle_bool_iff in Hpos. rewrite Hpos, Qfloor_div_whole by exact Hn.
  rewrite inject_Z_mult. reflexivity.
Qed.

Lemma two_digits (m : Z) :
  (0 <= m < 60)%Z -> String.length (Js.padStart2 (Js.toString m)) = 2%nat.
Proof.
  intros Hm. rewrite <- (Z2Nat.id m) by lia.
  assert (Hn : (Z.to_nat m < 60)%nat) by lia.
  generalize dependent (Z.to_nat m). clear.
  intros n Hn. do 60 (destruct n as [|n]; [reflexivity|]). lia.
Qed.

(** X10. For a duration that is not negative, the fraction of a second
    is dropped. From one hour on the duration is shown as hours, minutes
    and seconds, below that as minutes and seconds; the seconds, and in
    the long form the minutes, always take two digits. *)
Theorem formatDuration_drops_fraction (q : Q) :
  (0 <= q)%Q ->
  let s := Qfloor q in
  formatDuration (Js.Num q)
  = (if (3600 <=? s)%Z
     then Js.toString (s / 3600) +:+ ":" +:+ Js.padStart2 (Js.toString (s mod 3600 / 60))
            +:+ ":" +:+ Js.padStart2 (Js.toString (s mod 60))
     else Js.toString (s / 60) +:+ ":" +:+ Js.padStart2 (Js.toString (s mod 60)))
  /\ String.length (Js.padStart2 (Js.toString (s mod 3600 / 60))) = 2%nat
  /\ String.length (Js.padStart2 (Js.toString (s mod 60))) = 2%nat.
Proof.
  intros Hq. cbn zeta.
  assert (Hs : (0 <= Qfloor q)%Z).
  { rewrite <- (Qfloor_Z 0). apply Qfloor_resp_le. exact Hq. }
  split; [|split; apply two_digits].
  - unfold formatDuration, Js.floor.
    change 3600%Q with (inject_Z 3600). change 60%Q with (inject_Z 60).
    rewrite !rem_by_whole by (assumption || lia).
    rewrite !Qfloor_div_whole, !Qfloor_minus_whole by lia.
    rewrite <- !Z.mod_eq by lia.
    destruct (Z.leb_spec 3600 (Qfloor q)) as [Hlong|Hshort].
    + assert (Hh : (Qfloor q / 3600 >? 0)%Z = true).
      { apply Z.gtb_lt. apply Z.div_str_pos. lia. }
      rewrite Hh. reflexivity.
    + rewrite (Z.div_small (Qfloor q) 3600), (Z.mod_small (Qfloor q) 3600) by lia.
      reflexivity.
  - pose proof (Z.mod_pos_bound (Qfloor q) 3600 ltac:(lia)).
    split; [apply Z.div_pos; lia | apply Z.div_lt_upper_bound; lia].
  - apply Z.mod_pos_bound. lia.
Qed.

Lemma hundredths_of_quotient (b d : Z) :
  (0 < d)%Z ->
  Js.hundredths (inject_Z b / inject_Z d) = ((200 * b + d) / (2 * d))%Z.
Proof.
  intros Hd. unfold Js.hundredths.
  rewrite (Zdiv_Qdiv (200 * b + d) (2 * d)). apply Qfloor_comp.
  rewrite !inject_Z_plus, !inject_Z_mult.
  assert (Hne : ~ (inject_Z d == 0)%Q).
  { change 0%Q with (inject_Z 0). rewrite inject_Z_injective. lia. }
  field. exact Hne.
Qed.

Lemma whole_hundredths (n : Z) :
  (0 <= n)%Z -> Js.hundredths_toString (100 * n) = Js.toString n.
Proof.
  intros Hn. unfold Js.hundredths_toString.
  rewrite (Z.mul_comm 100 n), Z.mod_mul, Z.div_mul by lia. reflexivity.
Qed.

(** X11. A size below 1024 bytes is shown as the plain number of bytes
    followed by "Bytes", without decimals. *)
Theorem formatFileSize_below_one_kilobyte (bytes : Z) :
  (0 <= bytes < 1024)%Z ->
  formatFileSize bytes = Js.toString bytes +:+ " Bytes".
Proof.
  intros Hb. destruct (Z.eq_dec bytes 0%Z) as [->|Hne]; [reflexivity|].
  rewrite (formatFileSize_scaled bytes 0%Z);
    [|lia|change (1024 ^ 0)%Z with 1%Z; change (1024 ^ (0 + 1))%Z with 1024%Z; lia].
  change (1024 ^ 0)%Z with 1%Z.
  rewrite hundredths_of_quotient by lia.
  replace ((200 * bytes + 1) / (2 * 1))%Z with (100 * bytes)%Z.
  - rewrite whole_hundredths by lia. reflexivity.
  - apply (Z.div_unique _ _ _ 1); lia.
Qed.

Lemma size_between_powers (bytes : Z) :
  (1 <= bytes)%Z ->
  let i := (Z.log2 bytes / Z.log2 1024)%Z in
  (0 <= i)%Z /\ (1024 ^ i <= bytes < 1024 ^ (i + 1))%Z.
Proof.
  intros Hb. cbn zeta. change (Z.log2 1024) with 10%Z.
  pose proof (Z.log2_nonneg bytes) as Hlog.
  destruct (Z.log2_spec bytes ltac:(lia)) as [Hlo Hhi].
  assert (Hi : (0 <= Z.log2 bytes / 10)%Z) by (apply Z.div_pos; lia).
  pose proof (Z.mul_div_le (Z.log2 bytes) 10 ltac:(lia)) as Hle.
  pose proof (Z.mul_succ_div_gt (Z.log2 bytes) 10 ltac:(lia)) as Hgt.
  change 1024%Z with (2 ^ 10)%Z. rewrite <- !Z.pow_mul_r by lia.
  split; [exact Hi|]. split.
  - apply Z.le_trans with (2 ^ Z.log2 bytes)%Z; [|exact Hlo].
    apply Z.pow_le_mono_r; lia.
  - apply Z.lt_le_trans with (2 ^ Z.succ (Z.log2 bytes))%Z; [exact Hhi|].
    apply Z.pow_le_mono_r; lia.
Qed.

(** X12. For a size of at least one byte and less than [1024 ^ 4]
    bytes, the number shown is the size divided by the largest power of
    1024 that does not exceed it, rounded to hundredths: it lies between
    1 and 1024, and 1024 itself is shown when rounding reaches it. The
    unit is the one of that power: Bytes, KB, MB or GB. *)
Theorem formatFileSize_number_and_unit (bytes : Z) :
  (1 <= bytes < 1024 ^ 4)%Z ->
  exists n i,
    (0 <= i <= 3)%Z
    /\ (100 <= n <= 102400)%Z
    /\ (1024 ^ i <= bytes < 1024 ^ (i + 1))%Z
    /\ n = ((200 * bytes + 1024 ^ i) / (2 * 1024 ^ i))%Z
    /\ formatFileSize bytes
       = Js.hundredths_toString n +:+ " "
           +:+ nth (Z.to_nat i) ["Bytes"; "KB"; "MB"; "GB"] "undefined"
    /\ nth (Z.to_nat i) ["Bytes"; "KB"; "MB"; "GB"] "undefined"
       ∈ ["Bytes"; "KB"; "MB"; "GB"].
Proof.
  intros [Hb Hbelow].
  destruct (size_between_powers bytes Hb) as [Hi Hbetween].
  set (i := (Z.log2 bytes / Z.log2 1024)%Z) in *.
  assert (Hd : (0 < 1024 ^ i)%Z) by (apply Z.pow_pos_nonneg; lia).
  assert (Hthree : (i <= 3)%Z).
  { destruct (Z.le_gt_cases i 3) as [|Hlarge]; [assumption|exfalso].
    destruct Hbetween as [Hlo _].
    assert (1024 ^ 4 <= 1024 ^ i)%Z by (apply Z.pow_le_mono_r; lia).
    lia. }
  exists ((200 * bytes + 1024 ^ i) / (2 * 1024 ^ i))%Z, i.
  assert (Hfmt : formatFileSize bytes
                 = Js.hundredths_toString ((200 * bytes + 1024 ^ i) / (2 * 1024 ^ i))
                     +:+ " " +:+ nth (Z.to_nat i) ["Bytes"; "KB"; "MB"; "GB"] "undefined").
  { rewrite (formatFileSize_scaled bytes i Hi Hbetween).
    rewrite hundredths_of_quotient by exact Hd. reflexivity. }
  split_all; try reflexivity; try exact Hfmt; try apply Hbetween; try assumption.
  - apply Z.div_le_lower_bound; lia.
  - apply Z.lt_succ_r. apply Z.div_lt_upper_bound; [lia|].
    destruct Hbetween as [_ Hhi]. rewrite Z.pow_add_r in Hhi by lia.
    change (1024 ^ 1)%Z with 1024%Z in Hhi. lia.
  - assert (Hcases : i = 0%Z \/ i = 1%Z \/ i = 2%Z \/ i = 3%Z) by lia.
    destruct Hcases as [H | [H | [H | H]]]; rewrite H; cbn.
    + left.
    + right. left.
    + do 2 right. left.
    + do 3 right. left.
Qed.

End FormattingInGeneral.

(** Witness of X10: 3725.9 seconds are shown as 1:02:05. *)
Lemma formatDuration_drops_fraction_witness :
  formatDuration (Js.Num (37259 # 10)) = "1:02:05".
Proof.
  destruct (formatDuration_drops_fraction (37259 # 10)) as (Hshown & _); [discriminate|].
  rewrite Hshown. vm_compute. reflexivity.
Defined.

(** Witness of X11: 1023 bytes. *)
Lemma formatFileSize_below_one_kilobyte_witness :
  formatFileSize 1023 = "1023 Bytes".
Proof.
  rewrite (formatFileSize_below_one_kilobyte 1023) by lia. vm_compute. reflexivity.
Defined.

(** Witness of X12: one byte less than a mebibyte is shown as 1024 KB. *)
Lemma formatFileSize_number_and_unit_witness :
  (exists n i,
      (100 <= n <= 102400)%Z
      /\ formatFileSize 1048575
         = Js.hundredths_toString n +:+ " "
             +:+ nth (Z.to_nat i) ["Bytes"; "KB"; "MB"; "GB"] "undefined")
  /\ formatFileSize 1048575 = "1024 KB".
Proof.
  split.
  - destruct (formatFileSize_number_and_unit 1048575 ltac:(lia))
      as (n & i & _ & Hn & _ & _ & Hfmt & _).
    exists n, i. split; assumption.
  - vm_compute. reflexivity.
Defined.

(** ** The listeners of the page and the server status *)

Section Page.

Lemma showServerStatus_single (status message : string) (body : list StatusElement) :
  (length body <= 1)%nat ->
  showServerStatus status message body
  = [{| className := "server-status server-" +:+ status; textContent := message |}].
Proof.
  intros Hlen. destruct body as [|el [|el' body]]; cbn in *; try reflexivity. lia.
Qed.

Lemma probe_single (o : Outcome bool) (w : Window) :
  (length (body_serverStatus w) <= 1)%nat ->
  exists el,
    body_serverStatus (dispatch w (ServerStatusSettled o)) = [el]
    /\ (className el = "server-status server-online" <-> exists loaded, o = Ok loaded)
    /\ (className el = "server-status server-online"
        \/ className el = "server-status server-offline")
    /\ editor (dispatch w (ServerStatusSettled o)) = editor w
    /\ uploadArea_dragover (dispatch w (ServerStatusSettled o)) = uploadArea_dragover w.
Proof.
  intros Hlen. destruct o as [message|detail|loaded|[] message];
    cbn [dispatch checkServerStatus_resume];
    cbn [body_serverStatus]; rewrite showServerStatus_single by exact Hlen;
    eexists; (split; [reflexivity|]); cbn; split_all; try reflexivity.
  - split; [discriminate | intros [? [=]]].
  - right. reflexivity.
  - split; [discriminate | intros [? [=]]].
  - right. reflexivity.
  - split; [intros _; eexists; reflexivity | reflexivity].
  - left. reflexivity.
  - split; [discriminate | intros [? [=]]].
  - right. reflexivity.
  - split; [discriminate | intros [? [=]]].
  - right. reflexivity.
Qed.

(** X13. However many status probes have settled, the body holds one
    status element. It is marked online exactly when the last probe got a
    success response, and offline when the response was an error or the
    request failed; the editor is not touched. *)
Theorem server_status_follows_last_probe (outcomes : list (Outcome bool)) (w : Window) :
  (length (body_serverStatus w) <= 1)%nat ->
  forall o,
    let w' := fold_left dispatch (List.map ServerStatusSettled (outcomes ++ [o])) w in
    exists el,
      body_serverStatus w' = [el]
      /\ (className el = "server-status server-online" <-> exists loaded, o = Ok loaded)
      /\ (className el = "server-status server-online"
          \/ className el = "server-status server-offline")
      /\ editor w' = editor w.
Proof.
  revert w. induction outcomes as [|o' outcomes IH]; intros w Hlen o; cbn zeta.
  - cbn. destruct (probe_single o w Hlen) as (el & Hb & Hon & Hcls & Hed & _).
    exists el. split_all; assumption.
  - cbn [app List.map fold_left].
    destruct (probe_single o' w Hlen) as (el' & Hb' & _ & _ & Hed' & _).
    destruct (IH (dispatch w (ServerStatusSettled o')) ltac:(rewrite Hb'; cbn; lia) o)
      as (el & Hb & Hon & Hcls & Hed).
    exists el. split_all; try assumption. rewrite Hed. exact Hed'.
Qed.

(** X14. A drop takes the highlight off the upload area and hands only
    the first of the dropped files to the editor: the other files of the
    drop change nothing, at most one upload request is issued, and it is
    for the first file. A drop without files leaves the editor as it is,
    whereas a [change] event without a file shows the message that no
    file was selected. *)
Theorem drop_takes_first_file_only (w : Window) :
  (forall first others,
      dispatch w (Drop (first :: others)) = dispatch w (Drop [first])
      /\ uploadArea_dragover (dispatch w (Drop (first :: others))) = false
      /\ requests (browser (editor (dispatch w (Drop (first :: others)))))
         = (requests (browser (editor w))
              ++ (if fst (validateFile (Some first) (editor w)) then [PostUpload first]
                  else []))%list)
  /\ editor (dispatch w (Drop [])) = editor w
  /\ errorMessage_textContent (page (editor (dispatch w (Change [])))) = msg_no_file
  /\ errorMessage_display (page (editor (dispatch w (Change [])))) = "block"
  /\ browser (editor (dispatch w (Change []))) = browser (editor w).
Proof.
  split; [|split_all; reflexivity].
  intros first others. split; [reflexivity|]. split; [reflexivity|].
  cbn [dispatch editor set_dragover set_editor]. unfold handleFileSelect.
  rewrite validateFile_rejection.
  destruct (rejection (Some first)); cbn; rewrite ?app_nil_r; reflexivity.
Qed.

End Page.

(** Witness of X13: a failed probe followed by a successful one. *)
Lemma server_status_follows_last_probe_witness :
  exists el,
    body_serverStatus
      (fold_left dispatch
         (List.map ServerStatusSettled [NetworkError "Failed to fetch"; Ok true]) loaded)
    = [el]
    /\ className el = "server-status server-online".
Proof.
  destruct (server_status_follows_last_probe [NetworkError "Failed to fetch"] loaded
              ltac:(cbn; lia) (Ok true)) as (el & Hb & Hon & _).
  exists el. split; [exact Hb|]. apply Hon. exists true. reflexivity.
Defined.

(** ** The simulated processing of the older editor *)

Section Simulated.

Lemma round_in_range (p : Q) :
  (0 <= p)%Q -> (p <= 100)%Q -> (0 <= Js.round p <= 100)%Z.
Proof.
  intros Hlo Hhi. unfold Js.round. split.
  - apply Z.le_trans with (Qfloor 0); [reflexivity|]. apply Qfloor_resp_le. lra.
  - apply Z.le_trans with (Qfloor (201 # 2)); [|reflexivity]. apply Qfloor_resp_le. lra.
Qed.

Lemma percent_written (p : Q) :
  (0 <= p)%Q -> (p <= 100)%Q -> percent_in_range (Js.toString (Js.round p) +:+ "%").
Proof.
  intros Hlo Hhi. right. exists (Js.round p).
  split; [apply round_in_range; assumption | reflexivity].
Qed.

Lemma legacy_width_written (p : Q) (ed : Legacy.Editor) :
  (0 <= p)%Q ->
  progressFill_width (page (Legacy.base (Legacy.updateProgress p ed)))
  = Js.toString (Js.round p) +:+ "%".
Proof.
  intros Hp.
  assert (Hround : (Js.round p <? 0)%Z = false).
  { apply Z.ltb_ge. unfold Js.round. change 0%Z with (Qfloor 0).
    apply Qfloor_resp_le. lra. }
  unfold Legacy.updateProgress. cbn -[Js.round Js.toString].
  rewrite Hround. reflexivity.
Qed.

Lemma displayed_all (files : list File.t) (d : Js.number) (w h : Z) (ed : Legacy.Editor) :
  let ed' := fold_left (fun ed file => Legacy.displayVideoInfo file d w h ed) files ed in
  Legacy.base ed' = Legacy.base ed
  /\ Legacy.intervals ed' = Legacy.intervals ed
  /\ Legacy.timeouts ed' = Legacy.timeouts ed
  /\ Legacy.listeners ed' = Legacy.listeners ed
  /\ Legacy.videoInfo ed'
     = match last files with
       | Some file => Some (panel_of file d w h)
       | None => Legacy.videoInfo ed
       end.
Proof.
  cbn zeta. revert ed. induction files as [|file files IH]; intros ed.
  - split_all; reflexivity.
  - cbn [fold_left]. destruct (IH (Legacy.displayVideoInfo file d w h ed))
      as (Hb & Hi & Ht & Hl & Hv).
    rewrite Hb, Hi, Ht, Hl, Hv. split_all; try reflexivity.
    destruct files as [|file' files]; [reflexivity|].
    change (last (file :: file' :: files)) with (last (file' :: files)).
    destruct (last (file' :: files)) eqn:Hlast; [reflexivity|].
    apply last_None in Hlast. discriminate Hlast.
Qed.

Lemma legacy_step_in_range (ed : Legacy.Editor) (e : Legacy.Event) :
  drawn e -> progress_in_range ed -> progress_in_range (Legacy.step ed e).
Proof.
  intros Hdrawn (Hsims & Hwidth & Htext).
  assert (Hkeep : forall ed',
             Legacy.intervals ed' = Legacy.intervals ed ->
             progressFill_width (page (Legacy.base ed'))
             = progressFill_width (page (Legacy.base ed)) ->
             progressText_textContent (page (Legacy.base ed'))
             = progressText_textContent (page (Legacy.base ed)) ->
             progress_in_range ed').
  { intros ed' H1 H2 H3. unfold progress_in_range. rewrite H1, H2, H3.
    split_all; assumption. }
  destruct e as [file| | |i r|i|d w h]; cbn [Legacy.step].
  - unfold Legacy.handleFileSelect. rewrite validateFile_rejection.
    destruct (rejection file); [apply Hkeep; reflexivity|].
    destruct file as [f|]; [|apply Hkeep; reflexivity].
    unfold progress_in_range. split_all.
    + cbn. apply Forall_app. split; [exact Hsims|].
      apply Forall_singleton. cbn. lra.
    + right. exists 0%Z. split; [lia | reflexivity].
    + right. exists 0%Z. split; [lia | reflexivity].
  - apply Hkeep; reflexivity.
  - unfold Legacy.resetUpload.
    destruct (Js.truthy (videoPlayer_src_read (page (Legacy.base ed)))); apply Hkeep; reflexivity.
  - destruct (Legacy.intervals ed !! i) as [sim|] eqn:Hsim; [|apply Hkeep; reflexivity].
    destruct (Legacy.sim_running sim); [|apply Hkeep; reflexivity].
    unfold Legacy.interval_callback. rewrite Hsim.
    pose proof (Forall_lookup_1 _ _ _ _ Hsims Hsim) as [Hlo Hhi]. cbn in Hlo, Hhi.
    destruct Hdrawn as [Hr _].
    destruct (Qle_bool 100 (Legacy.sim_progress sim + r * 15)) eqn:Hdone.
    + unfold progress_in_range. split_all.
      * cbn. apply Forall_insert; [exact Hsims|]. cbn. lra.
      * right. exists 100%Z. split; [lia | reflexivity].
      * right. exists 100%Z. split; [lia | reflexivity].
    + assert (Hbelow : ~ (100 <= Legacy.sim_progress sim + r * 15)%Q).
      { intros Hle. apply Qle_bool_iff in Hle. congruence. }
      unfold progress_in_range. split_all.
      * cbn. apply Forall_insert; [exact Hsims|]. cbn. lra.
      * rewrite legacy_width_written by lra. apply percent_written; lra.
      * apply percent_written; lra.
  - destruct (Legacy.timeouts ed !! i) as [file|]; apply Hkeep; reflexivity.
  - destruct (displayed_all (Legacy.listeners ed) d w h ed) as (Hb & Hi & _).
    apply Hkeep; [exact Hi | rewrite Hb; reflexivity | rewrite Hb; reflexivity].
Qed.

(** X15. In the older editor the percent on the page never leaves the
    range from 0 to 100: along any sequence of events in which every tick
    draws a number that [Math.random] can return, the progress of every
    simulation, the width of the bar and the text stay within it. *)
Theorem simulated_progress_stays_in_range (events : list Legacy.Event) :
  Forall drawn events ->
  progress_in_range (Legacy.run events Legacy.constructed).
Proof.
  assert (Hall : forall ed, Forall drawn events -> progress_in_range ed ->
                            progress_in_range (Legacy.run events ed)).
  { induction events as [|e events IH]; intros ed Hdrawn Hed; [exact Hed|].
    apply Forall_cons in Hdrawn as [He Hrest].
    cbn. apply IH; [exact Hrest|]. apply legacy_step_in_range; assumption. }
  intros Hdrawn. apply Hall; [exact Hdrawn|].
  unfold progress_in_range. split_all; [constructor | left; reflexivity | left; reflexivity].
Qed.

Lemma tick_continues (ed : Legacy.Editor) (i : nat) (sim : Legacy.Simulation) (r : Q) :
  Legacy.intervals ed !! i = Some sim ->
  Legacy.sim_running sim = true ->
  (Legacy.sim_progress sim + r * 15 < 100)%Q ->
  let ed' := Legacy.step ed (Legacy.IntervalFired i r) in
  Legacy.intervals ed' !! i
  = Some {| Legacy.sim_file := Legacy.sim_file sim;
            Legacy.sim_progress := Legacy.sim_progress sim + r * 15;
            Legacy.sim_running := true |}
  /\ Legacy.timeouts ed' = Legacy.timeouts ed
  /\ Legacy.listeners ed' = Legacy.listeners ed.
Proof.
  intros Hsim Hrun Hbelow. cbn zeta. cbn [Legacy.step]. rewrite Hsim, Hrun.
  unfold Legacy.interval_callback. rewrite Hsim.
  assert (Hnot : Qle_bool 100 (Legacy.sim_progress sim + r * 15) = false).
  { destruct (Qle_bool 100 (Legacy.sim_progress sim + r * 15)) eqn:Hle; [|reflexivity].
    apply Qle_bool_iff in Hle. lra. }
  rewrite Hnot. cbn. split_all; try reflexivity.
  apply list_lookup_insert_eq. eapply lookup_lt_Some. exact Hsim.
Qed.

Lemma tick_completes (ed : Legacy.Editor) (i : nat) (sim : Legacy.Simulation) (r : Q) :
  Legacy.intervals ed !! i = Some sim ->
  Legacy.sim_running sim = true ->
  (100 <= Legacy.sim_progress sim + r * 15)%Q ->
  let ed' := Legacy.step ed (Legacy.IntervalFired i r) in
  Legacy.intervals ed' !! i
  = Some {| Legacy.sim_file := Legacy.sim_file sim;
            Legacy.sim_progress := 100;
            Legacy.sim_running := false |}
  /\ Legacy.timeouts ed' = (Legacy.timeouts ed ++ [Legacy.sim_file sim])%list
  /\ Legacy.listeners ed' = Legacy.listeners ed
  /\ progressText_textContent (page (Legacy.base ed')) = "100%"
  /\ session (Legacy.base ed') = session (Legacy.base ed).
Proof.
  intros Hsim Hrun Hdone. cbn zeta. cbn [Legacy.step]. rewrite Hsim, Hrun.
  unfold Legacy.interval_callback. rewrite Hsim.
  apply Qle_bool_iff in Hdone. rewrite Hdone. cbn. split_all; try reflexivity.
  apply list_lookup_insert_eq. eapply lookup_lt_Some. exact Hsim.
Qed.

Lemma run_ticks_cons (i : nat) (r : Q) (randoms : list Q) (ed : Legacy.Editor) :
  Legacy.run (ticks i (r :: randoms)) ed
  = Legacy.run (ticks i randoms) (Legacy.step ed (Legacy.IntervalFired i r)).
Proof. reflexivity. Qed.

Lemma ticks_stopped (randoms : list Q) (ed : Legacy.Editor) (i : nat)
    (sim : Legacy.Simulation) :
  Legacy.intervals ed !! i = Some sim ->
  Legacy.sim_running sim = false ->
  Legacy.run (ticks i randoms) ed = ed.
Proof.
  intros Hsim Hstop. induction randoms as [|r randoms IH]; [reflexivity|].
  rewrite run_ticks_cons. cbn [Legacy.step]. rewrite Hsim, Hstop. exact IH.
Qed.

Lemma ticks_below_100 (randoms : list Q) (ed : Legacy.Editor) (i : nat)
    (sim : Legacy.Simulation) :
  Legacy.intervals ed !! i = Some sim ->
  Legacy.sim_running sim = true ->
  Forall random_number randoms ->
  (Legacy.sim_progress sim + 15 * inject_Z (Z.of_nat (length randoms)) <= 100)%Q ->
  exists sim',
    Legacy.intervals (Legacy.run (ticks i randoms) ed) !! i = Some sim'
    /\ Legacy.sim_running sim' = true
    /\ Legacy.timeouts (Legacy.run (ticks i randoms) ed) = Legacy.timeouts ed.
Proof.
  revert ed sim. induction randoms as [|r randoms IH]; intros ed sim Hsim Hrun Hrs Hroom.
  - exists sim. split_all; [exact Hsim | exact Hrun | reflexivity].
  - apply Forall_cons in Hrs as [[Hr0 Hr1] Hrest].
    cbn [length] in Hroom. rewrite Nat2Z.inj_succ in Hroom.
    unfold Z.succ in Hroom. rewrite inject_Z_plus in Hroom.
    assert (Hn : (0 <= inject_Z (Z.of_nat (length randoms)))%Q).
    { change 0%Q with (inject_Z 0). rewrite <- Zle_Qle. lia. }
    change (inject_Z 1) with 1%Q in Hroom.
    destruct (tick_continues ed i sim r Hsim Hrun ltac:(lra)) as (Hsim' & Ht & _).
    destruct (IH _ _ Hsim' eq_refl Hrest ltac:(cbn; lra)) as (sim'' & Hs & Hr & Hts).
    exists sim''. rewrite run_ticks_cons.
    split_all; [exact Hs | exact Hr | rewrite Hts; exact Ht].
Qed.

(** X16. The simulated processing of a file cannot end before its seventh
    tick: after at most six ticks of a fresh simulation, whatever numbers
    were drawn, its interval is still running and the completion callback
    has not been scheduled. *)
Theorem simulated_processing_needs_seven_ticks
    (ed : Legacy.Editor) (i : nat) (sim : Legacy.Simulation) (randoms : list Q) :
  Legacy.intervals ed !! i = Some sim ->
  Legacy.sim_running sim = true ->
  (Legacy.sim_progress sim == 0)%Q ->
  Forall random_number randoms ->
  (length randoms <= 6)%nat ->
  let ed' := Legacy.run (ticks i randoms) ed in
  (exists sim', Legacy.intervals ed' !! i = Some sim' /\ Legacy.sim_running sim' = true)
  /\ Legacy.timeouts ed' = Legacy.timeouts ed.
Proof.
  intros Hsim Hrun Hzero Hrs Hlen. cbn zeta.
  assert (Hroom : (Legacy.sim_progress sim + 15 * inject_Z (Z.of_nat (length randoms))
                   <= 100)%Q).
  { assert (Hsix : (inject_Z (Z.of_nat (length randoms)) <= 6)%Q).
    { change 6%Q with (inject_Z 6). rewrite <- Zle_Qle. lia. }
    lra. }
  destruct (ticks_below_100 randoms ed i sim Hsim Hrun Hrs Hroom) as (sim' & Hs & Hr & Ht).
  split; [exists sim'; split; assumption | exact Ht].
Qed.

(** X17. The completion of a simulation is scheduled at most once. The
    ticks of an interval either leave the pending callbacks as they were,
    or add one callback for the file of the simulation, and then the
    interval is cleared with the progress at 100 and further ticks change
    nothing. *)
Theorem simulated_processing_completes_once
    (randoms : list Q) (ed : Legacy.Editor) (i : nat) (sim : Legacy.Simulation) :
  Legacy.intervals ed !! i = Some sim ->
  let ed' := Legacy.run (ticks i randoms) ed in
  Legacy.timeouts ed' = Legacy.timeouts ed
  \/ (Legacy.timeouts ed' = (Legacy.timeouts ed ++ [Legacy.sim_file sim])%list
      /\ Legacy.intervals ed' !! i
         = Some {| Legacy.sim_file := Legacy.sim_file sim;
                   Legacy.sim_progress := 100;
                   Legacy.sim_running := false |}
      /\ forall more, Legacy.run (ticks i more) ed' = ed').
Proof.
  cbn zeta. revert ed sim. induction randoms as [|r randoms IH]; intros ed sim Hsim.
  - left. reflexivity.
  - destruct (Legacy.sim_running sim) eqn:Hrun.
    + destruct (Qlt_le_dec (Legacy.sim_progress sim + r * 15) 100) as [Hbelow|Hdone].
      * destruct (tick_continues ed i sim r Hsim Hrun Hbelow) as (Hsim' & Ht & _).
        rewrite run_ticks_cons.
        destruct (IH _ _ Hsim') as [Hsame|(Hadd & Hstop & Hmore)].
        -- left. rewrite Hsame. exact Ht.
        -- right. rewrite Hadd, Ht. split_all; [reflexivity | exact Hstop | exact Hmore].
      * destruct (tick_completes ed i sim r Hsim Hrun Hdone) as (Hsim' & Ht & _).
        rewrite run_ticks_cons.
        rewrite (ticks_stopped randoms _ i _ Hsim' eq_refl).
        right. split_all; [exact Ht | exact Hsim'|].
        intros more. apply (ticks_stopped more _ i _ Hsim' eq_refl).
    + left. rewrite (ticks_stopped _ ed i sim Hsim Hrun). reflexivity.
Qed.

Lemma legacy_reset_keeps (ed : Legacy.Editor) :
  Legacy.intervals (Legacy.resetUpload ed) = Legacy.intervals ed
  /\ Legacy.timeouts (Legacy.resetUpload ed) = Legacy.timeouts ed
  /\ Legacy.listeners (Legacy.resetUpload ed) = Legacy.listeners ed
  /\ currentFile (session (Legacy.base (Legacy.resetUpload ed))) = None.
Proof.
  unfold Legacy.resetUpload.
  destruct (Js.truthy (videoPlayer_src_read (page (Legacy.base ed)))); split_all; reflexivity.
Qed.

Lemma timeout_fires (ed : Legacy.Editor) (i : nat) (file : File.t) :
  Legacy.timeouts ed !! i = Some file ->
  let ed' := Legacy.step ed (Legacy.TimeoutFired i) in
  videoSection_display (page (Legacy.base ed')) = "block"
  /\ uploadSection_display (page (Legacy.base ed')) = "none"
  /\ videoPlayer_src (page (Legacy.base ed')) <> ""
  /\ session (Legacy.base ed') = session (Legacy.base ed)
  /\ Legacy.listeners ed' = (Legacy.listeners ed ++ [file])%list.
Proof.
  intros Hi. cbn zeta. cbn [Legacy.step]. rewrite Hi.
  split_all; try reflexivity. discriminate.
Qed.

(** X18. [resetUpload] of the older editor does not clear the interval of
    a running simulation. When the simulation ends after the reset and
    its callback fires, the video section is put on show with a new
    object URL in the player, although no file is selected. *)
Theorem legacy_reset_keeps_simulation
    (ed : Legacy.Editor) (i : nat) (sim : Legacy.Simulation) (r : Q) :
  Legacy.intervals ed !! i = Some sim ->
  Legacy.sim_running sim = true ->
  (100 <= Legacy.sim_progress sim + r * 15)%Q ->
  let ed' := Legacy.run [Legacy.ResetClicked; Legacy.IntervalFired i r;
                         Legacy.TimeoutFired (length (Legacy.timeouts ed))] ed in
  Legacy.intervals (Legacy.resetUpload ed) !! i = Some sim
  /\ videoSection_display (page (Legacy.base ed')) = "block"
  /\ uploadSection_display (page (Legacy.base ed')) = "none"
  /\ videoPlayer_src (page (Legacy.base ed')) <> ""
  /\ currentFile (session (Legacy.base ed')) = None
  /\ Legacy.listeners ed' = (Legacy.listeners ed ++ [Legacy.sim_file sim])%list.
Proof.
  intros Hsim Hrun Hdone. cbn zeta.
  destruct (legacy_reset_keeps ed) as (Hi & Ht & Hl & Hf).
  assert (Hsim' : Legacy.intervals (Legacy.resetUpload ed) !! i = Some sim)
    by (rewrite Hi; exact Hsim).
  split; [exact Hsim'|].
  change (Legacy.run [Legacy.ResetClicked; Legacy.IntervalFired i r;
                      Legacy.TimeoutFired (length (Legacy.timeouts ed))] ed)
    with (Legacy.step (Legacy.step (Legacy.resetUpload ed) (Legacy.IntervalFired i r))
                      (Legacy.TimeoutFired (length (Legacy.timeouts ed)))).
  destruct (tick_completes (Legacy.resetUpload ed) i sim r Hsim' Hrun Hdone)
    as (_ & Ht' & Hl' & _ & Hs').
  assert (Hpending : Legacy.timeouts
                       (Legacy.step (Legacy.resetUpload ed) (Legacy.IntervalFired i r))
                     !! length (Legacy.timeouts ed) = Some (Legacy.sim_file sim)).
  { rewrite Ht', Ht. apply list_lookup_middle. reflexivity. }
  destruct (timeout_fires _ _ _ Hpending) as (Hv & Hu & Hsrc & Hs & Hls).
  split_all; try assumption.
  - rewrite Hs, Hs'. exact Hf.
  - rewrite Hls, Hl', Hl. reflexivity.
Qed.

Lemma legacy_step_listeners (ed : Legacy.Editor) (e : Legacy.Event) :
  exists added, Legacy.listeners (Legacy.step ed e) = (Legacy.listeners ed ++ added)%list.
Proof.
  destruct e as [file| | |i r|i|d w h]; cbn [Legacy.step].
  - unfold Legacy.handleFileSelect. destruct (validateFile file (Legacy.base ed)) as [[] st].
    + destruct file; exists []; rewrite app_nil_r; reflexivity.
    + exists []. rewrite app_nil_r. reflexivity.
  - exists []. rewrite app_nil_r. reflexivity.
  - exists []. rewrite app_nil_r. destruct (legacy_reset_keeps ed) as (_ & _ & H & _). exact H.
  - exists []. rewrite app_nil_r.
    destruct (Legacy.intervals ed !! i) as [sim|] eqn:Hsim; [|reflexivity].
    destruct (Legacy.sim_running sim); [|reflexivity].
    unfold Legacy.interval_callback. rewrite Hsim.
    destruct (Qle_bool 100 (Legacy.sim_progress sim + r * 15)); reflexivity.
  - destruct (Legacy.timeouts ed !! i) as [file|].
    + exists [file]. reflexivity.
    + exists []. rewrite app_nil_r. reflexivity.
  - exists []. rewrite app_nil_r.
    destruct (displayed_all (Legacy.listeners ed) d w h ed) as (_ & _ & _ & H & _). exact H.
Qed.

(** X19. The older editor adds a [loadedmetadata] listener for every
    file it shows and never removes one: every event keeps the listeners
    that were there. When the player reports its metadata, all of them
    run in the order they were added, so the panel ends up describing the
    file shown last, with the duration and the dimensions just
    reported. *)
Theorem metadata_panel_describes_last_file
    (ed : Legacy.Editor) (earlier : list File.t) (file : File.t)
    (d : Js.number) (w h : Z) :
  Legacy.listeners ed = (earlier ++ [file])%list ->
  Legacy.videoInfo (Legacy.step ed (Legacy.LoadedMetadata d w h))
  = Some (panel_of file d w h)
  /\ Legacy.base (Legacy.step ed (Legacy.LoadedMetadata d w h)) = Legacy.base ed
  /\ (forall e, exists added,
        Legacy.listeners (Legacy.step ed e) = (earlier ++ [file] ++ added)%list).
Proof.
  intros Hl. cbn [Legacy.step].
  destruct (displayed_all (Legacy.listeners ed) d w h ed) as (Hb & _ & _ & _ & Hv).
  rewrite Hv, Hb, Hl, last_snoc. split_all; try reflexivity.
  intros e. destruct (legacy_step_listeners ed e) as (added & Hadded).
  exists added. rewrite Hadded, Hl, <- app_assoc. reflexivity.
Qed.

End Simulated.

(** Witness of X15: a selection and two ticks. *)
Lemma simulated_progress_stays_in_range_witness :
  progress_in_range
    (Legacy.run [Legacy.FileSelected (Some clip); Legacy.IntervalFired 0 (1 # 2);
                 Legacy.IntervalFired 0 (9 # 10)] Legacy.constructed)
  /\ progressText_textContent
       (page (Legacy.base
                (Legacy.run [Legacy.FileSelected (Some clip); Legacy.IntervalFired 0 (1 # 2);
                             Legacy.IntervalFired 0 (9 # 10)] Legacy.constructed)))
     = "21%".
Proof.
  split; [|vm_compute; reflexivity].
  apply simulated_progress_stays_in_range.
  repeat constructor; discriminate.
Defined.

(** Witness of X16: six ticks that each draw 0.99. *)
Lemma simulated_processing_needs_seven_ticks_witness :
  Legacy.timeouts almost_processed = []
  /\ exists sim', Legacy.intervals almost_processed !! 0%nat = Some sim'
                  /\ Legacy.sim_running sim' = true.
Proof.
  destruct (simulated_processing_needs_seven_ticks processing 0%nat
              {| Legacy.sim_file := clip; Legacy.sim_progress := 0;
                 Legacy.sim_running := true |} six_draws)
    as [Hrunning Htimeouts].
  - vm_compute. reflexivity.
  - reflexivity.
  - reflexivity.
  - unfold six_draws. repeat constructor; discriminate.
  - cbn. lia.
  - split; [exact Htimeouts | exact Hrunning].
Defined.

(** Witness of X17: the seventh tick ends the simulation, an eighth
    changes nothing. *)
Lemma simulated_processing_completes_once_witness :
  Legacy.timeouts (Legacy.run (ticks 0 [99 # 100; 99 # 100]%Q) almost_processed) = [clip].
Proof.
  destruct (simulated_processing_completes_once [99 # 100; 99 # 100]%Q almost_processed
              0%nat _ eq_refl)
    as [Hsame|(Hadded & _)].
  - exfalso. vm_compute in Hsame. discriminate Hsame.
  - rewrite Hadded. vm_compute. reflexivity.
Defined.

(** Witness of X18: a reset before the seventh tick. *)
Lemma legacy_reset_keeps_simulation_witness :
  let ed' := Legacy.run [Legacy.ResetClicked; Legacy.IntervalFired 0 (99 # 100);
                         Legacy.TimeoutFired 0] almost_processed in
  videoSection_display (page (Legacy.base ed')) = "block"
  /\ currentFile (session (Legacy.base ed')) = None.
Proof.
  cbn zeta.
  destruct (legacy_reset_keeps_simulation almost_processed 0%nat _ (99 # 100) eq_refl)
    as (_ & Hvideo & _ & _ & Hfile & _).
  - reflexivity.
  - vm_compute. discriminate.
  - split; [exact Hvideo | exact Hfile].
Defined.

(** Witness of X19: two files shown one after the other. *)
Lemma metadata_panel_describes_last_file_witness :
  Legacy.listeners two_files_shown = [clip; second_clip]
  /\ Legacy.videoInfo (Legacy.step two_files_shown (Legacy.LoadedMetadata (Js.Num 125) 1920 1080))
     = Some (panel_of second_clip (Js.Num 125) 1920 1080).
Proof.
  assert (Hl : Legacy.listeners two_files_shown = ([clip] ++ [second_clip])%list)
    by (vm_compute; reflexivity).
  destruct (metadata_panel_describes_last_file two_files_shown [clip] second_clip
              (Js.Num 125) 1920 1080 Hl) as (Hpanel & _).
  split; [exact Hl | exact Hpanel].
Defined.
